(** * carepartner-helper: the [search_care_jobs] tool

    A shallow embedding of [src/tools/carepartner-helper.ts]: the
    timeout-wrapped fetch, the tool handler with its single outer
    [try]/[catch], and the registration gate.  Asynchronous code is written
    in a state-and-exception monad over an explicit [World]: the pending
    timers, the abort controllers, the process environment, the host's tool
    table and the chronological list of observable effects. *)

From Stdlib Require Import Floats.SpecFloat Strings.Ascii.
From stdpp Require Import gmap strings list fin_maps pretty.

Local Set Warnings "-register-all".

(** ** Characters that cannot be written inside a literal *)

Definition LF : string := String "010"%char EmptyString.
Definition DQ : string := String "034"%char EmptyString.

(** ** JavaScript values *)

(** The values [JSON.parse] can build, plus [undefined].  Numbers are IEEE
    doubles; an object is the list of its own properties, each name once. *)
Inductive JsValue : Type :=
| JUndefined
| JNull
| JBool (b : bool)
| JNumber (x : spec_float)
| JString (s : string)
| JArray (items : list JsValue)
| JObject (fields : list (string * JsValue)).

(** What a [throw] or a rejected promise carries: an instance of [Error]
    (subclasses are told apart by [name]) or any other value. *)
Inductive Thrown : Type :=
| ErrorObject (name message : string)
| Raised (v : JsValue).

(** [new Error(message)] *)
Definition new_Error (message : string) : Thrown := ErrorObject "Error" message.

(** [error instanceof Error] *)
Definition instanceof_Error (error : Thrown) : bool :=
  match error with
  | ErrorObject _ _ => true
  | Raised _ => false
  end.

(** [error instanceof Error && error.name === "AbortError"] *)
Definition is_AbortError (error : Thrown) : bool :=
  match error with
  | ErrorObject name _ => bool_decide (name = "AbortError")
  | Raised _ => false
  end.

(** JavaScript's ToBoolean, the test behind [!x]. *)
Definition to_boolean (v : JsValue) : bool :=
  match v with
  | JUndefined | JNull => false
  | JBool b => b
  | JNumber (S754_zero _) | JNumber S754_nan => false
  | JNumber _ => true
  | JString EmptyString => false
  | JString _ => true
  | JArray _ | JObject _ => true
  end.

(** ToBoolean of [process.env.X], a string or [undefined]. *)
Definition key_to_value (k : option string) : JsValue :=
  match k with
  | Some s => JString s
  | None => JUndefined
  end.

(** [`${k}`] for a string or [undefined]. *)
Definition key_to_template (k : option string) : string :=
  match k with
  | Some s => s
  | None => "undefined"
  end.

Fixpoint own_property (fields : list (string * JsValue)) (k : string) : JsValue :=
  match fields with
  | [] => JUndefined
  | (k', v) :: rest => if bool_decide (k' = k) then v else own_property rest k
  end.

(** [v.k] for a [v] that is neither [null] nor [undefined], where [k] is one
    of [choices], [message], [content]: no string, number, boolean or array
    has such a property, own or inherited, so only an object can answer. *)
Definition named_property (v : JsValue) (k : string) : JsValue :=
  match v with
  | JObject fields => own_property fields k
  | _ => JUndefined
  end.

(** The bytes of the first character of a string.  ([s[0]] is the first
    UTF-16 unit of [s]; all that is done with it below is to read its
    [message], which no string has.) *)
Definition first_character (s : string) : string :=
  match s with
  | EmptyString => EmptyString
  | String c rest =>
      let n := Ascii.N_of_ascii c in
      let len := if (n <? 192)%N then 0 else if (n <? 224)%N then 1
                 else if (n <? 240)%N then 2 else 3 in
      String c (String.substring 0 len rest)
  end.

(** [v?.k] *)
Definition optional_member (v : JsValue) (k : string) : JsValue :=
  match v with
  | JUndefined | JNull => JUndefined
  | _ => named_property v k
  end.

(** [v?.[0]] *)
Definition optional_index0 (v : JsValue) : JsValue :=
  match v with
  | JUndefined | JNull => JUndefined
  | JArray [] => JUndefined
  | JArray (x :: _) => x
  | JString EmptyString => JUndefined
  | JString s => JString (first_character s)
  | JObject fields => own_property fields "0"
  | JBool _ | JNumber _ => JUndefined
  end.

(** ** The HTTP objects *)

(** The text handed to the transport as request body: what
    [JSON.stringify] makes of a value (the serializer is the engine's). *)
Inductive JsonText : Type :=
| JSON_stringify (v : JsValue).

Record RequestInit : Type := {
  method : string;
  headers : list (string * string);
  body : JsonText;
  signal : option nat;
}.

(** [{...options, signal: s}] *)
Definition with_signal (options : RequestInit) (s : nat) : RequestInit :=
  {| method := method options; headers := headers options;
     body := body options; signal := Some s |}.

(** ** Outcomes *)

(** How an awaited computation ends: with a value, with a thrown value, or
    never. *)
Inductive Outcome (A : Type) : Type :=
| Normal (a : A)
| Throw (e : Thrown)
| Hang.
Arguments Normal {A} a.
Arguments Throw {A} e.
Arguments Hang {A}.

(** A response of the transport, as far as this module reads it:
    [response.ok], [.status], [.statusText], and what awaiting
    [response.text()] and [response.json()] gives. *)
Record Response : Type := {
  ok : bool;
  status : N;
  statusText : string;
  text_result : Outcome string;
  json_result : Outcome JsValue;
}.

(** What the endpoint does with the request, relative to the deadline. *)
Inductive Upstream : Type :=
| Responds (r : Response)   (* the promise resolves before any deadline fires *)
| Fails (e : Thrown)        (* the promise rejects before any deadline fires *)
| Stalls.                   (* nothing happens until the request is aborted *)

(** ** The world *)

(** The callback of a timer; the only one here is
    [() => controller.abort()]. *)
Inductive TimerCallback : Type :=
| CallAbort (controller : nat).

Global Instance TimerCallback_eq_dec : EqDecision TimerCallback.
Proof. solve_decision. Defined.

Inductive LogArg : Type :=
| LogValue (v : JsValue)
| LogThrown (e : Thrown).

Inductive Event : Type :=
| ConsoleWarn (msg : string)
| ConsoleError (msg : string) (arg : LogArg)
| SetTimeout (id : nat) (ms : N)
| ClearTimeout (id : nat)
| TimerFired (id : nat)
| FetchCall (url : string) (init : RequestInit).

(** [z.string().describe(d)] *)
Inductive ZodType : Type :=
| z_string_describe (d : string).

(** A function value: its code and what it closes over.  The handler closes
    over the module constant [openRouterApiKey]. *)
Inductive Closure : Type :=
| SearchCareJobsHandler (openRouterApiKey : option string).

Record ToolEntry : Type := {
  tool_name : string;
  tool_description : string;
  tool_schema : list (string * ZodType);
  tool_callback : Closure;
}.

Record World : Type := {
  env : gmap string string;                 (* process.env *)
  dotenv_file : option (gmap string string);(* the parsed .env file, if any *)
  upstream : Upstream;
  controllers : gmap nat bool;              (* signal.aborted per controller *)
  next_controller : nat;
  timers : gmap nat TimerCallback;          (* the timers still scheduled *)
  next_timer : nat;
  tool_table : list ToolEntry;              (* the host runtime's tools *)
  trace : list Event;                       (* effects, oldest first *)
}.

Definition with_env (f : gmap string string → gmap string string) (w : World) : World :=
  {| env := f (env w); dotenv_file := dotenv_file w; upstream := upstream w;
     controllers := controllers w; next_controller := next_controller w;
     timers := timers w; next_timer := next_timer w;
     tool_table := tool_table w; trace := trace w |}.

Definition with_upstream (u : Upstream) (w : World) : World :=
  {| env := env w; dotenv_file := dotenv_file w; upstream := u;
     controllers := controllers w; next_controller := next_controller w;
     timers := timers w; next_timer := next_timer w;
     tool_table := tool_table w; trace := trace w |}.

Definition with_controllers (f : gmap nat bool → gmap nat bool) (n : nat) (w : World) : World :=
  {| env := env w; dotenv_file := dotenv_file w; upstream := upstream w;
     controllers := f (controllers w); next_controller := n;
     timers := timers w; next_timer := next_timer w;
     tool_table := tool_table w; trace := trace w |}.

Definition with_timers (f : gmap nat TimerCallback → gmap nat TimerCallback) (n : nat) (w : World) : World :=
  {| env := env w; dotenv_file := dotenv_file w; upstream := upstream w;
     controllers := controllers w; next_controller := next_controller w;
     timers := f (timers w); next_timer := n;
     tool_table := tool_table w; trace := trace w |}.

Definition with_tool (t : ToolEntry) (w : World) : World :=
  {| env := env w; dotenv_file := dotenv_file w; upstream := upstream w;
     controllers := controllers w; next_controller := next_controller w;
     timers := timers w; next_timer := next_timer w;
     tool_table := tool_table w ++ [t]; trace := trace w |}.

Definition emit (ev : Event) (w : World) : World :=
  {| env := env w; dotenv_file := dotenv_file w; upstream := upstream w;
     controllers := controllers w; next_controller := next_controller w;
     timers := timers w; next_timer := next_timer w;
     tool_table := tool_table w; trace := trace w ++ [ev] |}.

(** ** The monad of effectful code *)

Definition M (A : Type) : Type := World → Outcome A * World.

Global Instance M_ret : MRet M := λ A a w, (Normal a, w).

Global Instance M_bind : MBind M := λ A B k m w,
  match m w with
  | (Normal a, w') => k a w'
  | (Throw e, w') => (Throw e, w')
  | (Hang, w') => (Hang, w')
  end.

Definition throw {A : Type} (e : Thrown) : M A := λ w, (Throw e, w).

(** [try { body } catch (error) { handler error }] *)
Definition try_catch {A : Type} (body : M A) (handler : Thrown → M A) : M A := λ w,
  match body w with
  | (Throw e, w') => handler e w'
  | r => r
  end.

(** [await p] for a promise whose settlement is already known. *)
Definition await {A : Type} (p : Outcome A) : M A := λ w, (p, w).

(** ** Runtime primitives *)

Definition console_warn (msg : string) : M unit := λ w,
  (Normal tt, emit (ConsoleWarn msg) w).

Definition console_error (msg : string) (arg : LogArg) : M unit := λ w,
  (Normal tt, emit (ConsoleError msg arg) w).

(** [new AbortController()]: a fresh controller whose signal is not aborted. *)
Definition new_AbortController : M nat := λ w,
  let c := next_controller w in
  (Normal c, with_controllers (insert c false) (S c) w).

(** [setTimeout(cb, ms)] *)
Definition setTimeout (cb : TimerCallback) (ms : N) : M nat := λ w,
  let id := next_timer w in
  (Normal id, emit (SetTimeout id ms) (with_timers (insert id cb) (S id) w)).

(** [clearTimeout(id)]; clearing a timer that already fired does nothing. *)
Definition clearTimeout (id : nat) : M unit := λ w,
  (Normal tt, emit (ClearTimeout id) (with_timers (delete id) (next_timer w) w)).

(** The scheduled timer, if any, whose callback aborts controller [c]. *)
Definition abort_timer_of (c : nat) (ts : gmap nat TimerCallback) : option nat :=
  (λ r, r.2.1) <$> list_find (λ p : nat * TimerCallback, p.2 = CallAbort c) (map_to_list ts).

(** The timer [id] fires: it leaves the schedule and its callback runs. *)
Definition fire_timer (id c : nat) (w : World) : World :=
  emit (TimerFired id)
    (with_controllers (insert c true) (next_controller w)
       (with_timers (delete id) (next_timer w) w)).

(** The error node-fetch rejects with once the signal is aborted.  (The
    text is node-fetch 3's; the wrapper below never reads it.) *)
Definition AbortError : Thrown :=
  ErrorObject "AbortError" "The operation was aborted.".

(** [fetch(url, init)], awaited.  A request whose signal is already aborted
    is rejected at once.  A stalled request settles only through its signal:
    the event loop runs until the timer that aborts it fires, and without
    such a timer the promise stays pending for ever. *)
Definition fetch (url : string) (init : RequestInit) : M Response := λ w,
  let w := emit (FetchCall url init) w in
  match signal init with
  | Some c =>
      if bool_decide (controllers w !! c = Some true) then (Throw AbortError, w)
      else
        match upstream w with
        | Responds r => (Normal r, w)
        | Fails e => (Throw e, w)
        | Stalls =>
            match abort_timer_of c (timers w) with
            | Some id => (Throw AbortError, fire_timer id c w)
            | None => (Hang, w)
            end
        end
  | None =>
      match upstream w with
      | Responds r => (Normal r, w)
      | Fails e => (Throw e, w)
      | Stalls => (Hang, w)
      end
  end.

(** ** [fetchWithTimeout] *)

Definition timeout_message (timeout : N) : string :=
  "요청 시간이 초과되었습니다. (" +:+ pretty timeout +:+ "ms)".

Definition fetchWithTimeout (url : string) (options : RequestInit) (timeout : N) : M Response :=
  controller ← new_AbortController;
  timeoutId ← setTimeout (CallAbort controller) timeout;
  try_catch
    (response ← fetch url (with_signal options controller);
     clearTimeout timeoutId;;
     mret response)
    (λ error,
       clearTimeout timeoutId;;
       if is_AbortError error
       then throw (new_Error (timeout_message timeout))
       else throw error).

(** ** The handler of [search_care_jobs] *)

Definition TIMEOUT_MS : N := 25000.

Record Args : Type := { location : string }.

Record ContentItem : Type := { type : string; text : JsValue }.

Record ToolResult : Type := { content : list ContentItem }.

Definition openRouterUrl : string := "https://openrouter.ai/api/v1/chat/completions".

Definition system_prompt : string :=
  "You are an expert in searching and analyzing care job information in Korea. Find care partner job listings near the given address in 'https://carepartner.kr' and provide them in a structured format. Each job listing must follow this format:" +:+ LF +:+ LF +:+
  "1. Job Title" +:+ LF +:+
  "2. Work Location" +:+ LF +:+
  "3. Working Hours" +:+ LF +:+
  "4. Salary Conditions" +:+ LF +:+
  "5. Job URL in 'https://carepartner.kr' (must be included)" +:+ LF +:+ LF +:+
  "If URL is not available, display 'URL not available'. Keep the response simple and clear.".

Definition user_prompt (location : string) : string :=
  "Find 3 care partner job listings near " +:+ DQ +:+ location +:+ DQ +:+
  " in 'https://carepartner.kr'. Provide the following information for each job listing: 1) Job Title 2) Work Location 3) Working Hours 4) Salary Conditions 5) Job URL".

(** The doubles 500 and 0.7. *)
Definition number_500 : spec_float := S754_finite false 8796093022208000 (-44).
Definition number_0_7 : spec_float := S754_finite false 6305039478318694 (-53).

Definition request_headers (openRouterApiKey : option string) : list (string * string) :=
  [("Authorization", "Bearer " +:+ key_to_template openRouterApiKey);
   ("Content-Type", "application/json")].

Definition request_body (location : string) : JsonText :=
  JSON_stringify (JObject [
    ("model", JString "perplexity/sonar-pro");
    ("messages", JArray [
       JObject [("role", JString "system"); ("content", JString system_prompt)];
       JObject [("role", JString "user"); ("content", JString (user_prompt location))]]);
    ("max_tokens", JNumber number_500);
    ("temperature", JNumber number_0_7)]).

Definition request_options (openRouterApiKey : option string) (location : string) : RequestInit :=
  {| method := "POST"; headers := request_headers openRouterApiKey;
     body := request_body location; signal := None |}.

(** The engine's TypeError for reading a property of [null] or
    [undefined] (V8's wording). *)
Definition TypeError_cannot_read (what prop : string) : Thrown :=
  ErrorObject "TypeError"
    ("Cannot read properties of " +:+ what +:+ " (reading '" +:+ prop +:+ "')").

(** [data.choices?.[0]?.message?.content] for a [data] other than [null]
    and [undefined]: every access after the first is an optional one. *)
Definition content_at_path (data : JsValue) : JsValue :=
  optional_member
    (optional_member (optional_index0 (named_property data "choices")) "message")
    "content".

(** [data.choices?.[0]?.message?.content]: the first access is a plain
    one and throws on [null] and [undefined]. *)
Definition read_assistantMessage (data : JsValue) : M JsValue :=
  match data with
  | JNull => throw (TypeError_cannot_read "null" "choices")
  | JUndefined => throw (TypeError_cannot_read "undefined" "choices")
  | _ => mret (content_at_path data)
  end.

Definition http_failure_message (response : Response) (errorText : string) : string :=
  "OpenRouter API 요청 실패: " +:+ pretty (status response) +:+ " " +:+
  statusText response +:+ " - " +:+ errorText.

Definition extraction_failure_message : string :=
  "OpenRouter 응답에서 메시지를 추출할 수 없습니다.".

Definition apology_preamble : string :=
  "죄송합니다. 일자리 검색 중 문제가 발생했습니다. 잠시 후 다시 시도해주세요." +:+ LF +:+ "오류: ".

(** [error instanceof Error ? error.message : "알 수 없는 오류"] *)
Definition fault_text (error : Thrown) : string :=
  match error with
  | ErrorObject _ message => message
  | Raised _ => "알 수 없는 오류"
  end.

Definition text_result_of (v : JsValue) : ToolResult :=
  {| content := [ {| type := "text"; text := v |} ] |}.

(** The body of the handler's [try] block. *)
Definition search_care_jobs_try (openRouterApiKey : option string) (location : string) : M ToolResult :=
  response ← fetchWithTimeout openRouterUrl
                (request_options openRouterApiKey location) TIMEOUT_MS;
  (if negb (ok response) then
     errorText ← await (text_result response);
     throw (new_Error (http_failure_message response errorText))
   else mret tt);;
  data ← await (json_result response);
  assistantMessage ← read_assistantMessage data;
  (if negb (to_boolean assistantMessage) then
     console_error "OpenRouter 응답 구조 오류:" (LogValue data);;
     throw (new_Error extraction_failure_message)
   else mret tt);;
  mret (text_result_of assistantMessage).

(** The body of the handler's [catch] block. *)
Definition search_care_jobs_catch (error : Thrown) : M ToolResult :=
  console_error "일자리 검색 중 오류 발생:" (LogThrown error);;
  mret (text_result_of (JString (apology_preamble +:+ fault_text error))).

(** The handler: [async (args) => { ... }]. *)
Definition search_care_jobs (openRouterApiKey : option string) (args : Args) : M ToolResult :=
  try_catch (search_care_jobs_try openRouterApiKey (location args))
            search_care_jobs_catch.

(** Calling a registered callback. *)
Definition call (f : Closure) (args : Args) : M ToolResult :=
  match f with
  | SearchCareJobsHandler openRouterApiKey => search_care_jobs openRouterApiKey args
  end.

(** ** Module scope and the registration gate *)

(** [dotenv.config()]: the variables of the .env file that the process
    does not define yet are added to [process.env]; without a file nothing
    changes. *)
Definition dotenv_config : M unit := λ w,
  (Normal tt,
   with_env (λ e, match dotenv_file w with Some f => e ∪ f | None => e end) w).

(** [process.env.NAME] *)
Definition process_env (name : string) : M (option string) := λ w,
  (Normal (env w !! name), w).

(** The statements at module scope, run once when the module is loaded;
    the result is the value of the constant [openRouterApiKey]. *)
Definition module_scope : M (option string) :=
  dotenv_config;;
  process_env "OPENROUTER_API_KEY".

(** Modelled from the spec: [server.tool] of the host runtime ([server]
    comes from [../index.js], which is not among the sources).  The
    registrar accepts a name, a description, an input schema and a handler
    and exposes the capability: one entry is added to the tool table. *)
Definition server_tool (name description : string)
    (schema : list (string * ZodType)) (cb : Closure) : M unit := λ w,
  (Normal tt,
   with_tool {| tool_name := name; tool_description := description;
                tool_schema := schema; tool_callback := cb |} w).

Definition missing_key_warning : string :=
  "OPENROUTER_API_KEY가 .env 파일에 없습니다. 'search_care_jobs' 도구가 등록되지 않습니다.".

(** The exported function.  It takes no argument in the source: the
    [openRouterApiKey] it tests and hands to the handler is the constant of
    the module, bound by [module_scope] when the module was loaded. *)
Definition registerSearchCareJobsTool (openRouterApiKey : option string) : M unit :=
  if negb (to_boolean (key_to_value openRouterApiKey)) then
    console_warn missing_key_warning
  else
    server_tool "search_care_jobs"
      "한국의 케어파트너라는 서비스에서 특정 지역의 요양 일자리를 검색합니다."
      [("location", z_string_describe "검색할 지역 주소")]
      (SearchCareJobsHandler openRouterApiKey).


(** ** Reading the code off: outcomes as functions of the upstream *)

Definition is_nullish (v : JsValue) : bool :=
  match v with
  | JUndefined | JNull => true
  | _ => false
  end.

(** How [fetchWithTimeout] ends, given what the endpoint does. *)
Definition wrapper_outcome (timeout : N) (u : Upstream) : Outcome Response :=
  match u with
  | Responds r => Normal r
  | Fails e => Throw (if is_AbortError e then new_Error (timeout_message timeout) else e)
  | Stalls => Throw (new_Error (timeout_message timeout))
  end.

Definition is_text_item (c : ContentItem) : bool :=
  bool_decide (type c = "text") &&
  match text c with
  | JString _ => true
  | _ => false
  end.

(** [{content: [{type: "text", text: string}]}] *)
Definition well_formed (r : ToolResult) : bool := forallb is_text_item (content r).

(** [sub] occurs in [s]. *)
Definition contains (s sub : string) : Prop :=
  ∃ before after, s = before +:+ sub +:+ after.

(** The statements of the [try] block that follow the fetch. *)
Definition after_fetch (response : Response) : M ToolResult :=
  (if negb (ok response) then
     errorText ← await (text_result response);
     throw (new_Error (http_failure_message response errorText))
   else mret tt);;
  data ← await (json_result response);
  assistantMessage ← read_assistantMessage data;
  (if negb (to_boolean assistantMessage) then
     console_error "OpenRouter 응답 구조 오류:" (LogValue data);;
     throw (new_Error extraction_failure_message)
   else mret tt);;
  mret (text_result_of assistantMessage).

(** What [after_fetch] does, by cases on the response. *)
Definition response_outcome (response : Response) (w : World) : Outcome ToolResult * World :=
  if ok response then
    match json_result response with
    | Normal JNull => (Throw (TypeError_cannot_read "null" "choices"), w)
    | Normal JUndefined => (Throw (TypeError_cannot_read "undefined" "choices"), w)
    | Normal data =>
        if to_boolean (content_at_path data)
        then (Normal (text_result_of (content_at_path data)), w)
        else (Throw (new_Error extraction_failure_message),
              emit (ConsoleError "OpenRouter 응답 구조 오류:" (LogValue data)) w)
    | Throw e => (Throw e, w)
    | Hang => (Hang, w)
    end
  else
    match text_result response with
    | Normal errorText => (Throw (new_Error (http_failure_message response errorText)), w)
    | Throw e => (Throw e, w)
    | Hang => (Hang, w)
    end.

(** What is known of the world in which [fetchWithTimeout] ends. *)
Definition wrapper_post (url : string) (options : RequestInit) (timeout : N)
    (w w1 : World) : Prop :=
  timers w1 !! next_timer w = None
  ∧ (∀ id cb, timers w1 !! id = Some cb → timers w !! id = Some cb)
  ∧ last (trace w1) = Some (ClearTimeout (next_timer w))
  ∧ SetTimeout (next_timer w) timeout ∈ trace w1
  ∧ FetchCall url (with_signal options (next_controller w)) ∈ trace w1
  ∧ (upstream w = Stalls →
       controllers w1 !! next_controller w = Some true
       ∧ ∃ id, TimerFired id ∈ trace w1).

(** The entry that the gate hands to the host runtime. *)
Definition search_care_jobs_entry (key : option string) : ToolEntry :=
  {| tool_name := "search_care_jobs";
     tool_description := "한국의 케어파트너라는 서비스에서 특정 지역의 요양 일자리를 검색합니다.";
     tool_schema := [("location", z_string_describe "검색할 지역 주소")];
     tool_callback := SearchCareJobsHandler key |}.

(** The credential the module reads when it is loaded in world [w]. *)
Definition configured_key (w : World) : option string :=
  match dotenv_file w with
  | Some f => env w ∪ f
  | None => env w
  end !! "OPENROUTER_API_KEY".


(** ** Sample worlds *)

Definition quoted (s : string) : string := DQ +:+ s +:+ DQ.

Definition idle_world : World :=
  {| env := ∅; dotenv_file := None; upstream := Stalls; controllers := ∅;
     next_controller := 0; timers := ∅; next_timer := 0; tool_table := [];
     trace := [] |}.

Definition seoul : Args := {| location := "서울시 강남구" |}.

Definition test_key : option string := Some "sk-or-v1-test".

(** A [{choices: [{message: {content: c}}]}] body. *)
Definition completion (c : JsValue) : JsValue :=
  JObject [("choices", JArray [JObject [("message", JObject [("content", c)])]])].

Definition json_response (raw : string) (data : JsValue) : Response :=
  {| ok := true; status := 200; statusText := "OK";
     text_result := Normal raw; json_result := Normal data |}.

(** Scenario A: status 200, [{choices:[{message:{content:"1. Title..."}}]}]. *)
Definition scenario_A : World :=
  with_upstream
    (Responds (json_response
       ("{" +:+ quoted "choices" +:+ ":[{" +:+ quoted "message" +:+ ":{" +:+
        quoted "content" +:+ ":" +:+ quoted "1. Title..." +:+ "}}]}")
       (completion (JString "1. Title..."))))
    idle_world.

(** Scenario B: the upstream takes longer than the deadline. *)
Definition scenario_B : World := with_upstream Stalls idle_world.

(** Scenario C: status 500 with body [server error]. *)
Definition scenario_C_response : Response :=
  {| ok := false; status := 500; statusText := "Internal Server Error";
     text_result := Normal "server error";
     json_result := Throw (ErrorObject "SyntaxError"
                             "Unexpected token s in JSON at position 0") |}.

Definition scenario_C : World := with_upstream (Responds scenario_C_response) idle_world.

(** Scenario D: status 200 with body [{}]. *)
Definition scenario_D : World :=
  with_upstream (Responds (json_response "{}" (JObject []))) idle_world.

(** Status 200, and the assistant message is the empty string. *)
Definition empty_content : World :=
  with_upstream
    (Responds (json_response
       ("{" +:+ quoted "choices" +:+ ":[{" +:+ quoted "message" +:+ ":{" +:+
        quoted "content" +:+ ":" +:+ quoted EmptyString +:+ "}}]}")
       (completion (JString EmptyString))))
    idle_world.

(** Status 200, and the body is the JSON text [null]. *)
Definition null_body : World :=
  with_upstream (Responds (json_response "null" JNull)) idle_world.

(** A connection reset, as node-fetch reports it. *)
Definition ECONNRESET : Thrown :=
  ErrorObject "FetchError"
    "request to https://openrouter.ai/api/v1/chat/completions failed, reason: read ECONNRESET".

Definition connection_reset : World := with_upstream (Fails ECONNRESET) idle_world.


(** The module is loaded in a world without the credential; the
    credential is put into [process.env] before the gate is called. *)
Definition loaded_without_key : World := idle_world.

Definition called_with_key : World :=
  with_env (insert "OPENROUTER_API_KEY" "sk-or-v1-live") idle_world.


(** ** Fresh handles and further sample worlds *)

(** Handles are fresh: every scheduled timer and every controller was
    handed out before, so the next timer id and the next controller are
    new. *)
Definition world_ok (w : World) : Prop :=
  (∀ id c, timers w !! id = Some (CallAbort c) →
           id < next_timer w ∧ c < next_controller w)
  ∧ (∀ c b, controllers w !! c = Some b → c < next_controller w).

(** The effects of one [fetchWithTimeout], oldest first. *)
Definition wrapper_events (url : string) (options : RequestInit) (timeout : N)
    (w : World) : list Event :=
  [SetTimeout (next_timer w) timeout;
   FetchCall url (with_signal options (next_controller w))]
  ++ match upstream w with
     | Stalls => [TimerFired (next_timer w)]
     | _ => []
     end
  ++ [ClearTimeout (next_timer w)].

Definition is_ConsoleError (ev : Event) : bool :=
  match ev with
  | ConsoleError _ _ => true
  | _ => false
  end.


(** A cancellation that did not come from the deadline. *)
Definition aborted_elsewhere : Thrown :=
  ErrorObject "AbortError" "The user aborted a request.".

Definition aborted_request : World := with_upstream (Fails aborted_elsewhere) idle_world.

(** Options that already carry a signal. *)
Definition options_with_signal : RequestInit :=
  {| method := "GET"; headers := []; body := JSON_stringify JNull; signal := Some 7 |}.

(** Status 200 with a body that is no JSON. *)
Definition not_json : Thrown :=
  ErrorObject "SyntaxError" "Unexpected token < in JSON at position 0".

Definition html_on_200 : World :=
  with_upstream
    (Responds {| ok := true; status := 200; statusText := "OK";
                 text_result := Normal "<html></html>"; json_result := Throw not_json |})
    idle_world.

(** Status 200, after which the body never arrives. *)
Definition stalled_body_response : Response :=
  {| ok := true; status := 200; statusText := "OK";
     text_result := Hang; json_result := Hang |}.

Definition stalled_body : World := with_upstream (Responds stalled_body_response) idle_world.

(** Status 200, and the assistant message is the number 500. *)
Definition numeric_content : World :=
  with_upstream
    (Responds (json_response
       ("{" +:+ quoted "choices" +:+ ":[{" +:+ quoted "message" +:+ ":{" +:+
        quoted "content" +:+ ":500}}]}")
       (completion (JNumber number_500))))
    idle_world.

(** Status 200, and the body is the empty array. *)
Definition array_body : World :=
  with_upstream (Responds (json_response "[]" (JArray []))) idle_world.

(** ** Proof automation *)

Ltac run_code :=
  cbv [fetchWithTimeout mbind M_bind mret M_ret new_AbortController setTimeout
       try_catch fetch clearTimeout throw await console_error console_warn
       with_signal signal emit with_timers with_controllers with_tool with_env
       env dotenv_file upstream controllers next_controller timers next_timer
       tool_table trace fire_timer].

(** ** Lemmas on the primitives *)

Lemma abort_timer_of_insert (c id : nat) (ts : gmap nat TimerCallback) :
  is_Some (abort_timer_of c (<[id := CallAbort c]> ts)).
Proof.
  unfold abort_timer_of.
  destruct (list_find _ _) as [r|] eqn:Hfind; [by eexists|].
  apply list_find_None in Hfind.
  rewrite Forall_forall in Hfind.
  destruct (Hfind (id, CallAbort c)); [|done].
  apply elem_of_map_to_list. apply lookup_insert_eq.
Qed.

Lemma string_app_assoc (a b c : string) : (a +:+ b) +:+ c = a +:+ (b +:+ c).
Proof.
  induction a as [|x a IH]; [done|].
  change (String x ((a +:+ b) +:+ c) = String x (a +:+ (b +:+ c))).
  by rewrite IH.
Qed.

Lemma string_app_empty_r (s : string) : s +:+ EmptyString = s.
Proof.
  induction s as [|x s IH]; [done|].
  change (String x (s +:+ EmptyString) = String x s).
  by rewrite IH.
Qed.

Lemma contains_app_r (p s sub : string) : contains s sub → contains (p +:+ s) sub.
Proof.
  intros (b & a & ->). exists (p +:+ b), a. by rewrite string_app_assoc.
Qed.

Lemma contains_app_l (s q sub : string) : contains s sub → contains (s +:+ q) sub.
Proof.
  intros (b & a & ->). exists b, (a +:+ q). by rewrite !string_app_assoc.
Qed.

Lemma contains_refl (s : string) : contains s s.
Proof.
  exists EmptyString, EmptyString.
  change (s = s +:+ EmptyString). by rewrite string_app_empty_r.
Qed.

Lemma fetchWithTimeout_run (url : string) (options : RequestInit) (timeout : N) (w : World) :
  ∃ w1, fetchWithTimeout url options timeout w = (wrapper_outcome timeout (upstream w), w1)
    ∧ wrapper_post url options timeout w w1.
Proof.
  unfold wrapper_post.
  destruct w as [e d u cs nc ts nt tt tr].
  run_code.
  rewrite lookup_insert_eq.
  rewrite bool_decide_eq_false_2 by discriminate.
  assert (Hkeep : ∀ id cb, delete nt (<[nt:=CallAbort nc]> ts) !! id = Some cb →
                           ts !! id = Some cb).
  { intros id cb [Hne Hin]%lookup_delete_Some. by rewrite lookup_insert_ne in Hin. }
  destruct u as [r|err|]; cbv [wrapper_outcome].
  - eexists; split; [reflexivity|]. run_code.
    rewrite lookup_delete_eq, last_snoc.
    repeat split; [done | set_solver | set_solver | done | done].
  - destruct (is_AbortError err); (eexists; split; [reflexivity|]); run_code;
      rewrite lookup_delete_eq, last_snoc;
      (repeat split; [done | set_solver | set_solver | done | done]).
  - destruct (abort_timer_of_insert nc nt ts) as [fired ->].
    change (is_AbortError AbortError) with true. cbv iota.
    eexists; split; [reflexivity|]. run_code.
    rewrite lookup_delete_eq, last_snoc.
    repeat split; [| set_solver | set_solver | by rewrite lookup_insert_eq |].
    + intros id cb [Hne [Hne' Hin]%lookup_delete_Some]%lookup_delete_Some.
      by rewrite lookup_insert_ne in Hin.
    + exists fired. set_solver.
Qed.

(** ** The handler, step by step *)

Lemma search_care_jobs_try_eq (key : option string) (loc : string) :
  search_care_jobs_try key loc =
  fetchWithTimeout openRouterUrl (request_options key loc) TIMEOUT_MS ≫= after_fetch.
Proof. reflexivity. Qed.

Lemma after_fetch_eq (response : Response) (w : World) :
  after_fetch response w = response_outcome response w.
Proof.
  unfold after_fetch, response_outcome.
  cbv [mbind M_bind mret M_ret await throw console_error read_assistantMessage].
  destruct (ok response); cbv [negb].
  - destruct (json_result response) as [data| |]; [|done|done].
    destruct data; try done; by destruct (to_boolean (content_at_path _)).
  - by destruct (text_result response).
Qed.

Lemma search_care_jobs_try_run (key : option string) (loc : string) (w : World) :
  ∃ w1,
    wrapper_post openRouterUrl (request_options key loc) TIMEOUT_MS w w1
    ∧ search_care_jobs_try key loc w =
      match wrapper_outcome TIMEOUT_MS (upstream w) with
      | Normal response => response_outcome response w1
      | Throw e => (Throw e, w1)
      | Hang => (Hang, w1)
      end.
Proof.
  destruct (fetchWithTimeout_run openRouterUrl (request_options key loc) TIMEOUT_MS w)
    as (w1 & Hrun & Hpost).
  exists w1. split; [exact Hpost|].
  rewrite search_care_jobs_try_eq.
  unfold mbind, M_bind at 1. rewrite Hrun.
  destruct (wrapper_outcome TIMEOUT_MS (upstream w)); [apply after_fetch_eq|done..].
Qed.

Lemma search_care_jobs_caught (key : option string) (args : Args) (w w1 : World) (e : Thrown) :
  search_care_jobs_try key (location args) w = (Throw e, w1) →
  search_care_jobs key args w =
    (Normal (text_result_of (JString (apology_preamble +:+ fault_text e))),
     emit (ConsoleError "일자리 검색 중 오류 발생:" (LogThrown e)) w1).
Proof.
  intros Htry. unfold search_care_jobs, try_catch. by rewrite Htry.
Qed.

Lemma search_care_jobs_passed (key : option string) (args : Args) (w w1 : World) (r : ToolResult) :
  search_care_jobs_try key (location args) w = (Normal r, w1) →
  search_care_jobs key args w = (Normal r, w1).
Proof.
  intros Htry. unfold search_care_jobs, try_catch. by rewrite Htry.
Qed.

(** After the fetch the handler only logs: the schedule stays as
    [fetchWithTimeout] left it and the trace grows. *)
Lemma search_care_jobs_world (key : option string) (args : Args) (w : World) :
  ∃ w1,
    wrapper_post openRouterUrl (request_options key (location args)) TIMEOUT_MS w w1
    ∧ timers (search_care_jobs key args w).2 = timers w1
    ∧ (∀ ev, ev ∈ trace w1 → ev ∈ trace (search_care_jobs key args w).2).
Proof.
  destruct (search_care_jobs_try_run key (location args) w) as (w1 & Hpost & Htry).
  exists w1. split; [exact Hpost|].
  unfold search_care_jobs, try_catch. rewrite Htry.
  assert (Hcatch : ∀ e w2, timers w2 = timers w1 →
            (∀ ev, ev ∈ trace w1 → ev ∈ trace w2) →
            timers (search_care_jobs_catch e w2).2 = timers w1
            ∧ (∀ ev, ev ∈ trace w1 → ev ∈ trace (search_care_jobs_catch e w2).2)).
  { intros e w2 Htimers Htrace. split; [exact Htimers|].
    intros ev Hev%Htrace. cbv [search_care_jobs_catch mbind M_bind console_error
                               mret M_ret snd emit trace]. set_solver. }
  destruct (wrapper_outcome TIMEOUT_MS (upstream w)) as [r|e|]; [|by apply Hcatch|done].
  unfold response_outcome. destruct (ok r).
  - destruct (json_result r) as [data|e|]; [|by apply Hcatch|done].
    destruct data as [| |b|x|s|items|fields]; [by apply Hcatch..| | | | |];
      (destruct (to_boolean (content_at_path _)); [done|]);
      (apply Hcatch; [done|]); intros ev Hev; cbv [emit trace];
      apply elem_of_app; by left.
  - destruct (text_result r); [by apply Hcatch..|done].
Qed.

(** ** The claims *)

(** C1. Whatever the upstream does, the handler never ends by throwing; and
    every fault raised inside its [try] block (timeout, transport failure,
    non-success status, malformed body) is returned as a well-formed
    ToolResult, one text item holding the apology preamble followed by the
    fault's message (for a thrown value that is no [Error], by the fixed
    words for an unknown error). *)
Theorem search_care_jobs_never_throws (key : option string) (args : Args) (w : World) :
  (∀ e w', search_care_jobs key args w ≠ (Throw e, w'))
  ∧ (∀ e w1,
       search_care_jobs_try key (location args) w = (Throw e, w1) →
       ∃ w' t,
         search_care_jobs key args w = (Normal (text_result_of (JString t)), w')
         ∧ well_formed (text_result_of (JString t)) = true
         ∧ t = apology_preamble +:+ fault_text e
         ∧ (∀ name message, e = ErrorObject name message →
              t = apology_preamble +:+ message)).
Proof.
  split.
  - intros e w'. unfold search_care_jobs, try_catch.
    by destruct (search_care_jobs_try key (location args) w) as [[r|e0|] w1].
  - intros e w1 Htry. eexists _, _.
    split; [by apply search_care_jobs_caught|].
    split; [done|]. split; [done|]. by intros name message ->.
Qed.

(** At scenario C the [try] block throws, and the fault comes back as text. *)
Lemma search_care_jobs_never_throws_witness :
  ∃ e w1,
    search_care_jobs_try test_key (location seoul) scenario_C = (Throw e, w1)
    ∧ ∃ w' t,
        search_care_jobs test_key seoul scenario_C = (Normal (text_result_of (JString t)), w')
        ∧ well_formed (text_result_of (JString t)) = true
        ∧ t = apology_preamble +:+ fault_text e
        ∧ (∀ name message, e = ErrorObject name message →
             t = apology_preamble +:+ message).
Proof.
  eexists _, _. split; [vm_compute; reflexivity|].
  eapply (proj2 (search_care_jobs_never_throws test_key seoul scenario_C)).
  vm_compute; reflexivity.
Defined.

(** X9. Unless the reading of the response body stalls, the handler ends,
    and it ends by returning one text item. *)
Lemma search_care_jobs_returns (key : option string) (args : Args) (w : World) :
  (∀ r, upstream w = Responds r →
        if ok r then json_result r ≠ Hang else text_result r ≠ Hang) →
  ∃ v w', search_care_jobs key args w = (Normal (text_result_of v), w').
Proof.
  intros Hbody.
  destruct (search_care_jobs_try_run key (location args) w) as (w1 & _ & Htry).
  destruct (search_care_jobs_try key (location args) w) as [[r|e|] w2] eqn:Hrun.
  - revert Htry. destruct (upstream w) as [resp|err|]; cbv [wrapper_outcome]; [|done..].
    unfold response_outcome. intros Htry.
    exists (content_at_path (default JNull (match json_result resp with Normal d => Some d | _ => None end))), w2.
    erewrite search_care_jobs_passed by exact Hrun.
    destruct (ok resp); [|by destruct (text_result resp)].
    destruct (json_result resp) as [data| |]; [|done..].
    destruct data; try done; simpl default;
      destruct (to_boolean (content_at_path _)); congruence.
  - eexists _, _. by apply search_care_jobs_caught.
  - exfalso. revert Htry.
    destruct (upstream w) as [resp|err|] eqn:Hup; cbv [wrapper_outcome]; [|done..].
    specialize (Hbody resp eq_refl). unfold response_outcome.
    destruct (ok resp).
    + destruct (json_result resp) as [data| |]; [|done..].
      destruct data; try done; by destruct (to_boolean (content_at_path _)).
    + by destruct (text_result resp).
Qed.

(** C2, as stated, fails twice.  A success status whose assistant message
    is the string [s] does not always give a ToolResult with text [s]: the
    empty string is answered with the apology.  And the string path is not
    the only one on which the [try] block ends normally: it also does for
    the number 500, which is no string. *)
Lemma success_path_is_not_the_string_path :
  ¬ (∀ (key : option string) (args : Args) (w : World) (r : Response)
       (data : JsValue) (s : string),
       upstream w = Responds r → ok r = true → json_result r = Normal data →
       content_at_path data = JString s →
       (search_care_jobs key args w).1 = Normal (text_result_of (JString s)))
  ∧ ¬ (∀ (key : option string) (args : Args) (w : World) (res : ToolResult)
         (w1 : World),
         search_care_jobs_try key (location args) w = (Normal res, w1) →
         ∃ r data s,
           upstream w = Responds r ∧ ok r = true ∧ json_result r = Normal data
           ∧ content_at_path data = JString s).
Proof.
  split.
  - intros Hclaim.
    specialize (Hclaim test_key seoul empty_content _ _ EmptyString
                  eq_refl eq_refl eq_refl eq_refl).
    vm_compute in Hclaim. discriminate Hclaim.
  - intros Hclaim.
    edestruct (Hclaim test_key seoul numeric_content)
      as (r & data & s & Hup & _ & Hjson & Hpath); [vm_compute; reflexivity|].
    injection Hup as <-. injection Hjson as <-. discriminate Hpath.
Qed.

(** C2, amended. When the upstream answers with a success status and a body
    whose [choices[0].message.content] is a non-empty string [s], the handler
    returns exactly one content item, of type text, whose text is [s]; and
    this is the only way for the [try] block to end normally with a
    well-formed ToolResult: then the status was a success, the assistant
    message was a non-empty string, and the result is that string. *)
Theorem nonempty_content_returned_verbatim (key : option string) (args : Args) (w : World) :
  (∀ r data s,
     upstream w = Responds r → ok r = true → json_result r = Normal data →
     content_at_path data = JString s → s ≠ EmptyString →
     ∃ w', search_care_jobs key args w =
             (Normal {| content := [ {| type := "text"; text := JString s |} ] |}, w'))
  ∧ (∀ res w1,
       search_care_jobs_try key (location args) w = (Normal res, w1) →
       well_formed res = true →
       ∃ r data s,
         upstream w = Responds r ∧ ok r = true ∧ json_result r = Normal data
         ∧ content_at_path data = JString s ∧ s ≠ EmptyString
         ∧ res = {| content := [ {| type := "text"; text := JString s |} ] |}).
Proof.
  destruct (search_care_jobs_try_run key (location args) w) as (w1 & _ & Htry).
  split.
  - intros r data s Hup Hok Hjson Hpath Hs. exists w1.
    apply search_care_jobs_passed. rewrite Htry, Hup. cbv [wrapper_outcome].
    unfold response_outcome. rewrite Hok, Hjson.
    destruct data; try discriminate Hpath; rewrite Hpath;
      by destruct s.
  - intros res w2 Hrun Hwf. rewrite Hrun in Htry.
    destruct (upstream w) as [r|err|]; cbv [wrapper_outcome] in Htry; [|done..].
    unfold response_outcome in Htry.
    destruct (ok r) eqn:Hok; [|by destruct (text_result r)].
    destruct (json_result r) as [data| |] eqn:Hjson; [|done..].
    assert (Hres : to_boolean (content_at_path data) = true
                   ∧ res = text_result_of (content_at_path data)).
    { destruct data; try done;
        destruct (to_boolean (content_at_path _)) eqn:Htruthy; try done;
        by injection Htry as -> _. }
    destruct Hres as [Htruthy ->].
    destruct (content_at_path data) as [| |b|x|s|items|fields] eqn:Hpath;
      try discriminate Hwf.
    exists r, data, s. repeat split; try done.
    intros ->. discriminate Htruthy.
Qed.

(** Scenario A: the text of the ToolResult is [1. Title...], exactly. *)
Lemma nonempty_content_returned_verbatim_witness :
  (upstream scenario_A = Responds (json_response
       ("{" +:+ quoted "choices" +:+ ":[{" +:+ quoted "message" +:+ ":{" +:+
        quoted "content" +:+ ":" +:+ quoted "1. Title..." +:+ "}}]}")
       (completion (JString "1. Title..."))))
  ∧ content_at_path (completion (JString "1. Title...")) = JString "1. Title..."
  ∧ "1. Title..." ≠ EmptyString
  ∧ ∃ w', search_care_jobs test_key seoul scenario_A =
            (Normal {| content := [ {| type := "text"; text := JString "1. Title..." |} ] |}, w').
Proof.
  split; [reflexivity|]. split; [reflexivity|]. split; [discriminate|].
  eapply (proj1 (nonempty_content_returned_verbatim test_key seoul scenario_A));
    [reflexivity | reflexivity | reflexivity | reflexivity | discriminate].
Defined.

(** C3. When the deadline fires before the HTTP operation completes, the
    [try] block raises the timeout fault and the handler returns a ToolResult
    whose text is the apology preamble followed by the timeout message, which
    names the 25000 ms. *)
Theorem deadline_surfaces_timeout (key : option string) (args : Args) (w : World) :
  upstream w = Stalls →
  ∃ w1 w' t,
    search_care_jobs_try key (location args) w =
      (Throw (new_Error (timeout_message TIMEOUT_MS)), w1)
    ∧ search_care_jobs key args w = (Normal (text_result_of (JString t)), w')
    ∧ (∃ id, TimerFired id ∈ trace w')
    ∧ t = apology_preamble +:+ timeout_message TIMEOUT_MS
    ∧ contains t apology_preamble
    ∧ contains t "25000".
Proof.
  intros Hup.
  destruct (search_care_jobs_try_run key (location args) w) as (w1 & _ & Htry).
  rewrite Hup in Htry. cbv [wrapper_outcome] in Htry.
  exists w1. eexists _, _. split; [exact Htry|].
  split; [by apply search_care_jobs_caught|].
  split.
  { destruct (search_care_jobs_world key args w)
      as (w2 & (_ & _ & _ & _ & _ & Hfired) & _ & Hgrow).
    destruct (Hfired Hup) as (_ & id & Hid). exists id.
    apply Hgrow in Hid. by rewrite (search_care_jobs_caught _ _ _ _ _ Htry) in Hid. }
  split; [reflexivity|].
  split; [apply contains_app_l, contains_refl|].
  apply contains_app_r. by exists "요청 시간이 초과되었습니다. (", "ms)".
Qed.

(** Scenario B. *)
Lemma deadline_surfaces_timeout_witness :
  upstream scenario_B = Stalls
  ∧ ∃ w1 w' t,
      search_care_jobs_try test_key (location seoul) scenario_B =
        (Throw (new_Error (timeout_message TIMEOUT_MS)), w1)
      ∧ search_care_jobs test_key seoul scenario_B = (Normal (text_result_of (JString t)), w')
      ∧ (∃ id, TimerFired id ∈ trace w')
      ∧ t = apology_preamble +:+ timeout_message TIMEOUT_MS
      ∧ contains t apology_preamble
      ∧ contains t "25000".
Proof.
  split; [reflexivity|].
  apply (deadline_surfaces_timeout test_key seoul scenario_B). reflexivity.
Defined.

(** C4. For a response with a non-success status whose body reads as
    [errorText], the [try] block raises a fault made of the status code, the
    status text and [errorText], and the text of the returned ToolResult
    contains all three. *)
Theorem http_error_names_status_and_body (key : option string) (args : Args)
    (w : World) (r : Response) (errorText : string) :
  upstream w = Responds r → ok r = false → text_result r = Normal errorText →
  ∃ w1 w' t,
    search_care_jobs_try key (location args) w =
      (Throw (new_Error ("OpenRouter API 요청 실패: " +:+ pretty (status r) +:+ " " +:+
                         statusText r +:+ " - " +:+ errorText)), w1)
    ∧ search_care_jobs key args w = (Normal (text_result_of (JString t)), w')
    ∧ contains t apology_preamble
    ∧ contains t (pretty (status r))
    ∧ contains t (statusText r)
    ∧ contains t errorText.
Proof.
  intros Hup Hok Htext.
  destruct (search_care_jobs_try_run key (location args) w) as (w1 & _ & Htry).
  rewrite Hup in Htry. cbv [wrapper_outcome] in Htry.
  unfold response_outcome in Htry. rewrite Hok, Htext in Htry.
  exists w1. eexists _, _. split; [exact Htry|].
  split; [by apply search_care_jobs_caught|].
  unfold fault_text, new_Error.
  split; [apply contains_app_l, contains_refl|].
  split; [|split]; apply contains_app_r.
  - by exists "OpenRouter API 요청 실패: ", (" " +:+ statusText r +:+ " - " +:+ errorText).
  - exists ("OpenRouter API 요청 실패: " +:+ pretty (status r) +:+ " "), (" - " +:+ errorText).
    by rewrite !string_app_assoc.
  - exists ("OpenRouter API 요청 실패: " +:+ pretty (status r) +:+ " " +:+ statusText r +:+ " - "),
           EmptyString.
    by rewrite !string_app_assoc, string_app_empty_r.
Qed.

(** Scenario C: the text contains [500] and [server error]. *)
Lemma http_error_names_status_and_body_witness :
  upstream scenario_C = Responds scenario_C_response
  ∧ ok scenario_C_response = false
  ∧ text_result scenario_C_response = Normal "server error"
  ∧ ∃ w' t,
      search_care_jobs test_key seoul scenario_C = (Normal (text_result_of (JString t)), w')
      ∧ contains t "500"
      ∧ contains t "server error".
Proof.
  split; [reflexivity|]. split; [reflexivity|]. split; [reflexivity|].
  destruct (http_error_names_status_and_body test_key seoul scenario_C
              scenario_C_response "server error" eq_refl eq_refl eq_refl)
    as (w1 & w' & t & _ & Hrun & _ & Hstatus & _ & Hbody).
  exists w', t. split; [exact Hrun|]. split; [exact Hstatus | exact Hbody].
Defined.

(** A success status whose parsed body is neither [null] nor [undefined]
    and whose assistant message is falsy (absent, or present and falsy): the
    body is logged, the extraction failure is raised, and the caller is
    given the apology with that fixed message. *)
Lemma malformed_body_path (key : option string) (args : Args) (w : World)
    (r : Response) (data : JsValue) :
  upstream w = Responds r → ok r = true → json_result r = Normal data →
  is_nullish data = false → to_boolean (content_at_path data) = false →
  ∃ w1 w',
    search_care_jobs_try key (location args) w =
      (Throw (new_Error extraction_failure_message), w1)
    ∧ search_care_jobs key args w =
      (Normal (text_result_of (JString (apology_preamble +:+ extraction_failure_message))), w')
    ∧ ConsoleError "OpenRouter 응답 구조 오류:" (LogValue data) ∈ trace w'.
Proof.
  intros Hup Hok Hjson Hnull Hfalsy.
  destruct (search_care_jobs_try_run key (location args) w) as (w1 & _ & Htry).
  rewrite Hup in Htry. cbv [wrapper_outcome] in Htry.
  unfold response_outcome in Htry. rewrite Hok, Hjson in Htry.
  assert (Hrun : search_care_jobs_try key (location args) w =
                 (Throw (new_Error extraction_failure_message),
                  emit (ConsoleError "OpenRouter 응답 구조 오류:" (LogValue data)) w1)).
  { rewrite Htry. destruct data; try discriminate Hnull; by rewrite Hfalsy. }
  eexists _, _. split; [exact Hrun|].
  split; [by rewrite (search_care_jobs_caught _ _ _ _ _ Hrun)|].
  cbv [emit trace]. set_solver.
Qed.

(** Scenario D: status 200 with body [{}] gives the apology with the fixed
    extraction-failure message, and the body is logged. *)
Example scenario_D_extraction_failure :
  ∃ w',
    search_care_jobs test_key seoul scenario_D =
      (Normal (text_result_of (JString (apology_preamble +:+ extraction_failure_message))), w')
    ∧ ConsoleError "OpenRouter 응답 구조 오류:" (LogValue (JObject [])) ∈ trace w'.
Proof.
  destruct (malformed_body_path test_key seoul scenario_D
              (json_response "{}" (JObject [])) (JObject [])
              eq_refl eq_refl eq_refl eq_refl eq_refl) as (w1 & w' & _ & Hrun & Hlog).
  by exists w'.
Qed.

(** C5, at the body [null]. The upstream answers 200 and the parsed body
    is [null], which has no [choices[0].message.content]. Reading
    [data.choices] throws the engine's TypeError: the malformed body is not
    logged, and the text handed back carries the TypeError's message and not
    the extraction-failure message. *)
Theorem null_body_skips_extraction_failure :
  ∃ w',
    search_care_jobs test_key seoul null_body =
      (Normal (text_result_of (JString
         (apology_preamble +:+ "Cannot read properties of null (reading 'choices')"))), w')
    ∧ (search_care_jobs test_key seoul null_body).1 ≠
      Normal (text_result_of (JString (apology_preamble +:+ extraction_failure_message)))
    ∧ (ConsoleError "OpenRouter 응답 구조 오류:" (LogValue JNull) ∉ trace w')
    ∧ content_at_path JNull = JUndefined.
Proof.
  eexists. split; [vm_compute; reflexivity|].
  split; [vm_compute; discriminate|].
  split; [|reflexivity].
  cbv [trace]. intros Hin.
  repeat (apply elem_of_cons in Hin as [Hin|Hin]; [discriminate Hin|]).
  by apply elem_of_nil in Hin.
Qed.

(** C6. However [fetchWithTimeout] ends (response, rethrown fault, timeout
    fault), its deadline timer was set, the last thing done before it ends
    is to clear that timer, the timer is no longer scheduled, and no other
    timer has been added; the same holds of the schedule once the handler
    has ended. *)
Theorem deadline_timer_always_cleared (url : string) (options : RequestInit)
    (timeout : N) (key : option string) (args : Args) (w : World) :
  (let w1 := (fetchWithTimeout url options timeout w).2 in
   SetTimeout (next_timer w) timeout ∈ trace w1
   ∧ last (trace w1) = Some (ClearTimeout (next_timer w))
   ∧ timers w1 !! next_timer w = None
   ∧ (∀ id cb, timers w1 !! id = Some cb → timers w !! id = Some cb))
  ∧ (fetchWithTimeout url options timeout w).1 ≠ Hang
  ∧ (let w' := (search_care_jobs key args w).2 in
     timers w' !! next_timer w = None
     ∧ (∀ id cb, timers w' !! id = Some cb → timers w !! id = Some cb)).
Proof.
  split; [|split].
  - destruct (fetchWithTimeout_run url options timeout w)
      as (w1 & -> & Hgone & Hkeep & Hlast & Hset & _). by cbv [snd].
  - destruct (fetchWithTimeout_run url options timeout w) as (w1 & -> & _).
    cbv [fst]. by destruct (upstream w).
  - destruct (search_care_jobs_world key args w)
      as (w1 & (Hgone & Hkeep & _) & Htimers & _).
    cbv zeta. by rewrite Htimers.
Qed.

(** C7. A fault of the transport that is not an [Error] named AbortError
    leaves [fetchWithTimeout] as the same value, and the handler returns the
    apology followed by its message, verbatim when the fault is an [Error]. *)
Theorem transport_fault_passes_through (url : string) (options : RequestInit)
    (timeout : N) (key : option string) (args : Args) (w : World) (e : Thrown) :
  upstream w = Fails e → is_AbortError e = false →
  (fetchWithTimeout url options timeout w).1 = Throw e
  ∧ ∃ w1 w' t,
      search_care_jobs_try key (location args) w = (Throw e, w1)
      ∧ search_care_jobs key args w = (Normal (text_result_of (JString t)), w')
      ∧ t = apology_preamble +:+ fault_text e
      ∧ (∀ name message, e = ErrorObject name message →
           t = apology_preamble +:+ message).
Proof.
  intros Hup Hnot. split.
  - destruct (fetchWithTimeout_run url options timeout w) as (w1 & -> & _).
    cbv [fst]. rewrite Hup. cbv [wrapper_outcome]. by rewrite Hnot.
  - destruct (search_care_jobs_try_run key (location args) w) as (w1 & _ & Htry).
    rewrite Hup in Htry. cbv [wrapper_outcome] in Htry. rewrite Hnot in Htry.
    exists w1. eexists _, _. split; [exact Htry|].
    split; [by apply search_care_jobs_caught|].
    split; [reflexivity|]. by intros name message ->.
Qed.

(** A connection reset reaches the caller with node-fetch's own words. *)
Lemma transport_fault_passes_through_witness :
  upstream connection_reset = Fails ECONNRESET
  ∧ is_AbortError ECONNRESET = false
  ∧ (fetchWithTimeout openRouterUrl (request_options test_key (location seoul))
       TIMEOUT_MS connection_reset).1 = Throw ECONNRESET
  ∧ ∃ w',
      search_care_jobs test_key seoul connection_reset =
        (Normal (text_result_of (JString (apology_preamble +:+
           "request to https://openrouter.ai/api/v1/chat/completions failed, reason: read ECONNRESET"))),
         w').
Proof.
  split; [reflexivity|]. split; [reflexivity|].
  destruct (transport_fault_passes_through openRouterUrl
              (request_options test_key (location seoul)) TIMEOUT_MS
              test_key seoul connection_reset ECONNRESET eq_refl eq_refl)
    as (Hwrapper & w1 & w' & t & _ & Hrun & _ & Htext).
  split; [exact Hwrapper|].
  exists w'. by rewrite <- (Htext _ _ eq_refl).
Defined.

(** ** The registration gate *)

Lemma credential_absent_iff (key : option string) :
  to_boolean (key_to_value key) = false ↔ key = None ∨ key = Some EmptyString.
Proof.
  destruct key as [[|c s]|]; cbn; split; try done; eauto; by intros [|].
Qed.

(** C8. With the credential absent (undefined, or the empty string, which
    the gate's test does not tell apart) the gate ends normally, adds one
    event to the trace, the warning that names OPENROUTER_API_KEY and
    search_care_jobs, and leaves the tool table as it was; with the
    credential present it ends normally, warns of nothing and adds one
    entry, named search_care_jobs, to the tool table. *)
Theorem registration_gate_on_credential (key : option string) (w : World) :
  (key = None ∨ key = Some EmptyString →
     ∃ w', registerSearchCareJobsTool key w = (Normal tt, w')
       ∧ trace w' = trace w ++ [ConsoleWarn missing_key_warning]
       ∧ tool_table w' = tool_table w)
  ∧ (∀ s, key = Some s → s ≠ EmptyString →
       ∃ w' entry, registerSearchCareJobsTool key w = (Normal tt, w')
         ∧ tool_table w' = tool_table w ++ [entry]
         ∧ tool_name entry = "search_care_jobs"
         ∧ tool_callback entry = SearchCareJobsHandler key
         ∧ trace w' = trace w)
  ∧ contains missing_key_warning "OPENROUTER_API_KEY"
  ∧ contains missing_key_warning "search_care_jobs".
Proof.
  split; [|split; [|split]].
  - intros Habsent%credential_absent_iff.
    unfold registerSearchCareJobsTool. rewrite Habsent. by eexists.
  - intros s -> Hs. destruct s as [|c s]; [done|].
    exists (with_tool (search_care_jobs_entry (Some (String c s))) w),
           (search_care_jobs_entry (Some (String c s))).
    done.
  - by exists EmptyString, "가 .env 파일에 없습니다. 'search_care_jobs' 도구가 등록되지 않습니다.".
  - by exists "OPENROUTER_API_KEY가 .env 파일에 없습니다. '", "' 도구가 등록되지 않습니다.".
Qed.

(** Scenario E and its opposite, on a host without tools. *)
Lemma registration_gate_on_credential_witness :
  (∃ w', registerSearchCareJobsTool None idle_world = (Normal tt, w')
     ∧ trace w' = [ConsoleWarn missing_key_warning]
     ∧ tool_table w' = [])
  ∧ (∃ w' entry, registerSearchCareJobsTool test_key idle_world = (Normal tt, w')
       ∧ tool_table w' = [entry]
       ∧ tool_name entry = "search_care_jobs"
       ∧ tool_callback entry = SearchCareJobsHandler test_key
       ∧ trace w' = []).
Proof.
  split.
  - apply (proj1 (registration_gate_on_credential None idle_world)). by left.
  - apply (proj1 (proj2 (registration_gate_on_credential test_key idle_world))
             "sk-or-v1-test"); [reflexivity | discriminate].
Defined.

(** C9, as stated, fails: the decision of the gate does not follow the
    environment as it stands when the gate is called.  Here the credential
    is in [process.env] at the call, and nothing is registered. *)
Lemma gate_ignores_env_at_call_time :
  ¬ (∀ (w_load w_call w1 : World) (key : option string),
       module_scope w_load = (Normal key, w1) →
       to_boolean (key_to_value (env w_call !! "OPENROUTER_API_KEY")) = true →
       tool_table (registerSearchCareJobsTool key w_call).2 ≠ tool_table w_call).
Proof.
  intros Hclaim.
  apply (Hclaim loaded_without_key called_with_key loaded_without_key None);
    reflexivity.
Qed.

(** C9, amended. The environment is read once, when the module is loaded
    and after [dotenv.config()] has merged the .env file into it; the gate
    and the handler use the value read then. Whatever the environment is
    when the gate is called, an entry is registered exactly when that value
    is truthy, and whatever it is when the handler runs, the request carries
    that value as bearer token. *)
Theorem gate_uses_key_read_at_load (w_load : World) :
  ∃ w1,
    module_scope w_load = (Normal (configured_key w_load), w1)
    ∧ ∀ w_call : World,
        tool_table (registerSearchCareJobsTool (configured_key w_load) w_call).2 =
          (if to_boolean (key_to_value (configured_key w_load))
           then tool_table w_call ++ [search_care_jobs_entry (configured_key w_load)]
           else tool_table w_call)
        ∧ ∀ (args : Args) (w : World),
            FetchCall openRouterUrl
              {| method := "POST";
                 headers := [("Authorization",
                              "Bearer " +:+ key_to_template (configured_key w_load));
                             ("Content-Type", "application/json")];
                 body := request_body (location args);
                 signal := Some (next_controller w) |}
            ∈ trace (call (SearchCareJobsHandler (configured_key w_load)) args w).2.
Proof.
  exists (dotenv_config w_load).2. split.
  { destruct w_load as [e d u cs nc ts nt tt tr]. by destruct d. }
  intros w_call. split.
  { unfold registerSearchCareJobsTool.
    by destruct (to_boolean (key_to_value (configured_key w_load))). }
  intros args w.
  destruct (search_care_jobs_world (configured_key w_load) args w)
    as (w1 & (_ & _ & _ & _ & Hfetch & _) & _ & Hgrow).
  apply Hgrow, Hfetch.
Qed.

(** C10. For a success status whose assistant message is present and falsy
    (the empty string, [null], [false], a zero), the handler logs the body,
    raises the extraction failure and returns the apology; it does not
    return the falsy message as text. *)
Theorem falsy_content_takes_malformed_path (key : option string) (args : Args)
    (w : World) (r : Response) (data : JsValue) :
  upstream w = Responds r → ok r = true → json_result r = Normal data →
  content_at_path data ≠ JUndefined → to_boolean (content_at_path data) = false →
  ∃ w',
    search_care_jobs key args w =
      (Normal (text_result_of (JString (apology_preamble +:+ extraction_failure_message))), w')
    ∧ ConsoleError "OpenRouter 응답 구조 오류:" (LogValue data) ∈ trace w'
    ∧ (search_care_jobs key args w).1 ≠ Normal (text_result_of (content_at_path data)).
Proof.
  intros Hup Hok Hjson Hpresent Hfalsy.
  assert (Hnull : is_nullish data = false) by (by destruct data).
  destruct (malformed_body_path key args w r data Hup Hok Hjson Hnull Hfalsy)
    as (w1 & w' & _ & Hrun & Hlog).
  exists w'. split; [exact Hrun|]. split; [exact Hlog|].
  rewrite Hrun. cbv [fst]. intros Heq. injection Heq as Heq.
  by rewrite <- Heq in Hfalsy.
Qed.

(** The empty assistant message. *)
Lemma falsy_content_takes_malformed_path_witness :
  content_at_path (completion (JString EmptyString)) ≠ JUndefined
  ∧ to_boolean (content_at_path (completion (JString EmptyString))) = false
  ∧ ∃ w',
      search_care_jobs test_key seoul empty_content =
        (Normal (text_result_of (JString (apology_preamble +:+ extraction_failure_message))), w')
      ∧ ConsoleError "OpenRouter 응답 구조 오류:" (LogValue (completion (JString EmptyString)))
          ∈ trace w'
      ∧ (search_care_jobs test_key seoul empty_content).1 ≠
          Normal (text_result_of (content_at_path (completion (JString EmptyString)))).
Proof.
  split; [discriminate|]. split; [reflexivity|].
  eapply (falsy_content_takes_malformed_path test_key seoul empty_content);
    [reflexivity | reflexivity | reflexivity | discriminate | reflexivity].
Defined.

(** Once an entry is registered, calling its callback runs the handler
    with the key the closure holds. *)
Example registered_callback_runs_handler :
  ∃ w' entry,
    registerSearchCareJobsTool test_key idle_world = (Normal tt, w')
    ∧ tool_table w' = [entry]
    ∧ (call (tool_callback entry) seoul scenario_A).1 =
      Normal (text_result_of (JString "1. Title...")).
Proof. eexists _, _. split; [reflexivity|]. split; [reflexivity|]. by vm_compute. Qed.

(** ** Exact effects *)

Lemma abort_timer_of_fresh (c id : nat) (ts : gmap nat TimerCallback) :
  (∀ id', ts !! id' ≠ Some (CallAbort c)) →
  abort_timer_of c (<[id := CallAbort c]> ts) = Some id.
Proof.
  intros Hfresh.
  destruct (abort_timer_of_insert c id ts) as [fired Hfired].
  rewrite Hfired. f_equal.
  unfold abort_timer_of in Hfired.
  destruct (list_find _ _) as [[i [id' cb]]|] eqn:Hfind; [|done].
  injection Hfired as <-.
  apply list_find_Some in Hfind as (Hi & Hcb & _).
  apply list_elem_of_lookup_2, elem_of_map_to_list in Hi.
  cbn in Hcb. subst cb.
  destruct (decide (id' = id)) as [|Hne]; [done|].
  rewrite lookup_insert_ne in Hi by done. by destruct (Hfresh id').
Qed.

(** The world in which [fetchWithTimeout] ends, when handles are fresh. *)
Lemma fetchWithTimeout_exact (url : string) (options : RequestInit) (timeout : N) (w : World) :
  world_ok w →
  let w1 := (fetchWithTimeout url options timeout w).2 in
  trace w1 = trace w ++ wrapper_events url options timeout w
  ∧ timers w1 = timers w
  ∧ next_timer w1 = S (next_timer w)
  ∧ next_controller w1 = S (next_controller w)
  ∧ controllers w1 =
      <[next_controller w :=
          match upstream w with Stalls => true | _ => false end]> (controllers w)
  ∧ env w1 = env w ∧ dotenv_file w1 = dotenv_file w
  ∧ upstream w1 = upstream w ∧ tool_table w1 = tool_table w.
Proof.
  destruct w as [e d u cs nc ts nt tt tr]. intros [Htimers Hctl]. cbn in Htimers, Hctl.
  assert (Hnt : ts !! nt = None).
  { destruct (ts !! nt) as [[c]|] eqn:Hl; [|done]. apply Htimers in Hl. lia. }
  assert (Hnc : ∀ id', ts !! id' ≠ Some (CallAbort nc)).
  { intros id' Hl. apply Htimers in Hl. lia. }
  cbv zeta. unfold wrapper_events. run_code.
  rewrite lookup_insert_eq.
  rewrite bool_decide_eq_false_2 by discriminate.
  destruct u as [r|err|].
  - run_code. cbv [snd]. rewrite delete_insert_id by done.
    rewrite <- !app_assoc. done.
  - destruct (is_AbortError err); run_code; cbv [snd];
      rewrite delete_insert_id by done; rewrite <- !app_assoc; done.
  - rewrite abort_timer_of_fresh by done.
    change (is_AbortError AbortError) with true. cbv iota. run_code. cbv [snd].
    rewrite delete_insert_id by done.
    rewrite delete_id by done.
    rewrite insert_insert_eq. rewrite <- !app_assoc. done.
Qed.

Lemma search_care_jobs_try_unfold (key : option string) (loc : string) (w : World) :
  search_care_jobs_try key loc w =
  match fetchWithTimeout openRouterUrl (request_options key loc) TIMEOUT_MS w with
  | (Normal r, w1) => response_outcome r w1
  | (Throw e, w1) => (Throw e, w1)
  | (Hang, w1) => (Hang, w1)
  end.
Proof.
  rewrite search_care_jobs_try_eq. unfold mbind, M_bind.
  destruct (fetchWithTimeout _ _ _ w) as [[r|e|] w1]; [apply after_fetch_eq | done..].
Qed.

(** The handler after the fetch: it ends where [fetchWithTimeout] ended,
    but for what it logs. *)
Lemma search_care_jobs_steps (key : option string) (args : Args) (w : World) :
  let w1 := (fetchWithTimeout openRouterUrl
               (request_options key (location args)) TIMEOUT_MS w).2 in
  match search_care_jobs_try key (location args) w with
  | (Normal res, w2) => w2 = w1 ∧ search_care_jobs key args w = (Normal res, w1)
  | (Throw e, w2) =>
      (w2 = w1 ∨ ∃ data, w2 = emit (ConsoleError "OpenRouter 응답 구조 오류:" (LogValue data)) w1)
      ∧ search_care_jobs key args w =
        (Normal (text_result_of (JString (apology_preamble +:+ fault_text e))),
         emit (ConsoleError "일자리 검색 중 오류 발생:" (LogThrown e)) w2)
  | (Hang, w2) => w2 = w1 ∧ search_care_jobs key args w = (Hang, w1)
  end.
Proof.
  cbv zeta. unfold search_care_jobs, try_catch.
  rewrite search_care_jobs_try_unfold.
  destruct (fetchWithTimeout _ _ _ w) as [[r|e|] w1]; cbv [snd];
    [|by (split; [left|])|done].
  unfold response_outcome.
  destruct (ok r).
  - destruct (json_result r) as [data|e|]; [|by (split; [left|])|done].
    destruct data as [| |b|x|s|items|fields];
      [by (split; [left|]) | by (split; [left|]) | | | | |];
      (destruct (to_boolean (content_at_path _)); [done|]);
      (split; [right; by eexists | done]).
  - destruct (text_result r); [by (split; [left|])..|done].
Qed.

Lemma emit_frame (ev : Event) (w : World) :
  timers (emit ev w) = timers w ∧ next_timer (emit ev w) = next_timer w
  ∧ controllers (emit ev w) = controllers w
  ∧ next_controller (emit ev w) = next_controller w
  ∧ env (emit ev w) = env w ∧ dotenv_file (emit ev w) = dotenv_file w
  ∧ upstream (emit ev w) = upstream w ∧ tool_table (emit ev w) = tool_table w
  ∧ trace (emit ev w) = trace w ++ [ev].
Proof. by destruct w. Qed.

(** The world in which the handler ends: that of [fetchWithTimeout] with
    at most two more lines on the console. *)
Lemma search_care_jobs_exact (key : option string) (args : Args) (w : World) :
  let w1 := (fetchWithTimeout openRouterUrl
               (request_options key (location args)) TIMEOUT_MS w).2 in
  let w' := (search_care_jobs key args w).2 in
  timers w' = timers w1 ∧ next_timer w' = next_timer w1
  ∧ controllers w' = controllers w1 ∧ next_controller w' = next_controller w1
  ∧ env w' = env w1 ∧ dotenv_file w' = dotenv_file w1
  ∧ upstream w' = upstream w1 ∧ tool_table w' = tool_table w1
  ∧ ∃ logs, trace w' = trace w1 ++ logs
      ∧ forallb is_ConsoleError logs = true ∧ length logs ≤ 2.
Proof.
  intros w1 w'. subst w'.
  pose proof (search_care_jobs_steps key args w) as Hsteps. cbv zeta in Hsteps.
  fold w1 in Hsteps. clearbody w1.
  destruct (search_care_jobs_try key (location args) w) as [[res|e|] w2].
  - destruct Hsteps as [_ ->]. cbv [snd]. repeat split; try done.
    exists []. rewrite app_nil_r. repeat split; cbn; lia.
  - destruct Hsteps as [[->|[data ->]] ->]; cbv [snd]; destruct w1; cbn.
    + repeat split; try done.
      eexists [_]. split; [reflexivity|]. split; [reflexivity|]. cbn; lia.
    + repeat split; try done.
      eexists [_; _]. rewrite <- app_assoc.
      split; [reflexivity|]. split; [reflexivity|]. cbn; lia.
  - destruct Hsteps as [_ ->]. cbv [snd]. repeat split; try done.
    exists []. rewrite app_nil_r. repeat split; cbn; lia.
Qed.

Lemma idle_world_ok (u : Upstream) : world_ok (with_upstream u idle_world).
Proof. split; intros ? ?; cbn; by rewrite lookup_empty. Qed.

Lemma search_care_jobs_world_exact (key : option string) (args : Args) (w : World) :
  world_ok w →
  let w' := (search_care_jobs key args w).2 in
  world_ok w'
  ∧ timers w' = timers w
  ∧ next_timer w' = S (next_timer w)
  ∧ next_controller w' = S (next_controller w)
  ∧ env w' = env w ∧ dotenv_file w' = dotenv_file w
  ∧ upstream w' = upstream w ∧ tool_table w' = tool_table w
  ∧ ∃ logs,
      trace w' = trace w ++
        wrapper_events openRouterUrl (request_options key (location args)) TIMEOUT_MS w
        ++ logs
      ∧ forallb is_ConsoleError logs = true ∧ length logs ≤ 2.
Proof.
  intros Hok.
  destruct (fetchWithTimeout_exact openRouterUrl (request_options key (location args))
              TIMEOUT_MS w Hok)
    as (Htr & Hti & Hnt & Hnc & Hcs & Henv & Hdot & Hup & Htab).
  destruct (search_care_jobs_exact key args w)
    as (Hti' & Hnt' & Hcs' & Hnc' & Henv' & Hdot' & Hup' & Htab' & logs & Htr' & Hlogs).
  cbv zeta.
  rewrite Hti', Hnt', Hnc', Henv', Hdot', Hup', Htab', Hti, Hnt, Hnc, Henv, Hdot, Hup, Htab.
  split.
  { destruct Hok as [Htimers Hctl]. split.
    - intros id c Hl. rewrite Hti', Hti in Hl. rewrite Hnt', Hnc', Hnt, Hnc.
      apply Htimers in Hl. lia.
    - intros c b Hl. rewrite Hcs', Hcs in Hl. rewrite Hnc', Hnc.
      apply lookup_insert_Some in Hl as [[<- _]|[_ Hl%Hctl]]; lia. }
  repeat split; try done.
  exists logs. split; [|exact Hlogs]. by rewrite Htr', Htr, <- app_assoc.
Qed.

(** ** Further properties of the wrapper *)

(** X1. With fresh handles, one [fetchWithTimeout] does this and nothing
    else: it sets its timer, issues one fetch with the url, method, headers
    and body it was given and with the signal of its own new controller in
    place of any signal in the options, has that very timer fire if the
    request stalls, and clears the timer; the timers of others stay
    scheduled as they were. *)
Theorem fetchWithTimeout_effects (url : string) (options : RequestInit)
    (timeout : N) (w : World) :
  world_ok w →
  let w1 := (fetchWithTimeout url options timeout w).2 in
  trace w1 =
    trace w ++
    [SetTimeout (next_timer w) timeout;
     FetchCall url {| method := method options; headers := headers options;
                      body := body options; signal := Some (next_controller w) |}]
    ++ match upstream w with
       | Stalls => [TimerFired (next_timer w)]
       | _ => []
       end
    ++ [ClearTimeout (next_timer w)]
  ∧ timers w1 = timers w.
Proof.
  intros Hok.
  destruct (fetchWithTimeout_exact url options timeout w Hok) as (Htr & Hti & _).
  split; [exact Htr | exact Hti].
Qed.

(** A stalled request whose options came with a signal of their own. *)
Lemma fetchWithTimeout_effects_witness :
  world_ok scenario_B
  ∧ trace (fetchWithTimeout openRouterUrl options_with_signal 100 scenario_B).2 =
      [SetTimeout 0 100;
       FetchCall openRouterUrl
         {| method := "GET"; headers := []; body := JSON_stringify JNull;
            signal := Some 0 |};
       TimerFired 0;
       ClearTimeout 0]
  ∧ timers (fetchWithTimeout openRouterUrl options_with_signal 100 scenario_B).2 = ∅.
Proof.
  split; [apply idle_world_ok|].
  apply (fetchWithTimeout_effects openRouterUrl options_with_signal 100 scenario_B).
  apply idle_world_ok.
Defined.

(** X2. A response is handed back as it came, whatever its status: the
    wrapper throws for no HTTP status. *)
Theorem fetchWithTimeout_returns_any_response (url : string) (options : RequestInit)
    (timeout : N) (w : World) (r : Response) :
  upstream w = Responds r →
  (fetchWithTimeout url options timeout w).1 = Normal r.
Proof.
  intros Hup.
  destruct (fetchWithTimeout_run url options timeout w) as (w1 & -> & _).
  cbv [fst]. by rewrite Hup.
Qed.

Lemma fetchWithTimeout_returns_any_response_witness :
  upstream scenario_C = Responds scenario_C_response
  ∧ ok scenario_C_response = false
  ∧ (fetchWithTimeout openRouterUrl (request_options test_key (location seoul))
       TIMEOUT_MS scenario_C).1 = Normal scenario_C_response.
Proof.
  split; [reflexivity|]. split; [reflexivity|].
  by apply fetchWithTimeout_returns_any_response.
Defined.

(** X3. A fault of the transport that is an [Error] named AbortError is
    taken for the deadline although no timer fired: its own message is
    dropped, the wrapper throws the timeout error, and the handler reports
    the 25000 ms timeout. *)
Theorem abort_named_fault_becomes_timeout (url : string) (options : RequestInit)
    (timeout : N) (key : option string) (args : Args) (w : World) (e : Thrown) :
  world_ok w → upstream w = Fails e → is_AbortError e = true →
  (fetchWithTimeout url options timeout w).1 = Throw (new_Error (timeout_message timeout))
  ∧ (search_care_jobs key args w).1 =
      Normal (text_result_of (JString (apology_preamble +:+ timeout_message TIMEOUT_MS)))
  ∧ trace (search_care_jobs key args w).2 =
      trace w ++
      [SetTimeout (next_timer w) TIMEOUT_MS;
       FetchCall openRouterUrl
         (with_signal (request_options key (location args)) (next_controller w));
       ClearTimeout (next_timer w);
       ConsoleError "일자리 검색 중 오류 발생:"
         (LogThrown (new_Error (timeout_message TIMEOUT_MS)))].
Proof.
  intros Hok Hup Habort.
  assert (Hwrap : ∀ u o t,
            (fetchWithTimeout u o t w).1 = Throw (new_Error (timeout_message t))).
  { intros u o t. destruct (fetchWithTimeout_run u o t w) as (w1 & -> & _).
    cbv [fst]. rewrite Hup. cbv [wrapper_outcome]. by rewrite Habort. }
  split; [apply Hwrap|].
  pose proof (search_care_jobs_steps key args w) as Hsteps. cbv zeta in Hsteps.
  rewrite search_care_jobs_try_unfold in Hsteps.
  destruct (fetchWithTimeout_exact openRouterUrl (request_options key (location args))
              TIMEOUT_MS w Hok) as (Htr & _).
  specialize (Hwrap openRouterUrl (request_options key (location args)) TIMEOUT_MS).
  destruct (fetchWithTimeout openRouterUrl _ TIMEOUT_MS w) as [o w1].
  cbv [fst] in Hwrap. subst o. cbv [snd] in Htr, Hsteps.
  destruct Hsteps as [_ ->]. cbv [fst snd]. split; [done|].
  destruct (emit_frame (ConsoleError "일자리 검색 중 오류 발생:"
                          (LogThrown (new_Error (timeout_message TIMEOUT_MS)))) w1)
    as (_ & _ & _ & _ & _ & _ & _ & _ & ->).
  rewrite Htr. unfold wrapper_events. rewrite Hup. by rewrite <- !app_assoc.
Qed.

Lemma abort_named_fault_becomes_timeout_witness :
  world_ok aborted_request
  ∧ upstream aborted_request = Fails aborted_elsewhere
  ∧ is_AbortError aborted_elsewhere = true
  ∧ (search_care_jobs test_key seoul aborted_request).1 =
      Normal (text_result_of (JString (apology_preamble +:+ timeout_message TIMEOUT_MS)))
  ∧ (∀ id, TimerFired id ∉ trace (search_care_jobs test_key seoul aborted_request).2).
Proof.
  split; [apply idle_world_ok|]. split; [reflexivity|]. split; [reflexivity|].
  destruct (abort_named_fault_becomes_timeout openRouterUrl
              (request_options test_key (location seoul)) TIMEOUT_MS test_key seoul
              aborted_request aborted_elsewhere (idle_world_ok _) eq_refl eq_refl)
    as (_ & Hout & Htrace).
  split; [exact Hout|].
  intros id Hin. rewrite Htrace in Hin. cbn [trace aborted_request with_upstream idle_world app] in Hin.
  repeat (apply elem_of_cons in Hin as [Hin|Hin]; [discriminate Hin|]).
  by apply elem_of_nil in Hin.
Defined.

(** ** Further properties of the handler *)

(** X4. With fresh handles, the handler keeps them fresh, uses up one timer
    id and one controller, leaves the schedule of timers, the environment
    and the tool table as they were. *)
Theorem search_care_jobs_keeps_world (key : option string) (args : Args) (w : World) :
  world_ok w →
  let w' := (search_care_jobs key args w).2 in
  world_ok w'
  ∧ timers w' = timers w
  ∧ next_timer w' = S (next_timer w)
  ∧ next_controller w' = S (next_controller w)
  ∧ env w' = env w
  ∧ tool_table w' = tool_table w.
Proof.
  intros Hok.
  destruct (search_care_jobs_world_exact key args w Hok)
    as (Hok' & Hti & Hnt & Hnc & Henv & _ & _ & Htab & _).
  done.
Qed.

Lemma search_care_jobs_keeps_world_witness :
  world_ok scenario_A
  ∧ world_ok (search_care_jobs test_key seoul scenario_A).2
  ∧ timers (search_care_jobs test_key seoul scenario_A).2 = ∅
  ∧ next_timer (search_care_jobs test_key seoul scenario_A).2 = 1
  ∧ next_controller (search_care_jobs test_key seoul scenario_A).2 = 1
  ∧ env (search_care_jobs test_key seoul scenario_A).2 = ∅
  ∧ tool_table (search_care_jobs test_key seoul scenario_A).2 = [].
Proof.
  split; [apply idle_world_ok|].
  apply (search_care_jobs_keeps_world test_key seoul scenario_A), idle_world_ok.
Defined.

(** X5. One invocation issues exactly one request and never a second: with
    fresh handles its effects are the timer, one POST to the completions
    endpoint with the bearer key, the JSON content type and the body for
    the location, the firing of the timer if the request stalls, the
    clearing of the timer, and then at most two lines of console.error. *)
Theorem search_care_jobs_single_request (key : option string) (args : Args) (w : World) :
  world_ok w →
  ∃ logs,
    trace (search_care_jobs key args w).2 =
      trace w ++
      [SetTimeout (next_timer w) 25000;
       FetchCall "https://openrouter.ai/api/v1/chat/completions"
         {| method := "POST";
            headers := [("Authorization", "Bearer " +:+ key_to_template key);
                        ("Content-Type", "application/json")];
            body := request_body (location args);
            signal := Some (next_controller w) |}]
      ++ match upstream w with
         | Stalls => [TimerFired (next_timer w)]
         | _ => []
         end
      ++ [ClearTimeout (next_timer w)]
      ++ logs
    ∧ forallb is_ConsoleError logs = true
    ∧ length logs ≤ 2.
Proof.
  intros Hok.
  destruct (search_care_jobs_world_exact key args w Hok)
    as (_ & _ & _ & _ & _ & _ & _ & _ & logs & Htr & Hlogs).
  exists logs. split; [|exact Hlogs].
  rewrite Htr. unfold wrapper_events. by rewrite <- !app_assoc.
Qed.

Lemma search_care_jobs_single_request_witness :
  world_ok scenario_D
  ∧ ∃ logs,
      trace (search_care_jobs test_key seoul scenario_D).2 =
        [SetTimeout 0 25000;
         FetchCall "https://openrouter.ai/api/v1/chat/completions"
           {| method := "POST";
              headers := [("Authorization", "Bearer sk-or-v1-test");
                          ("Content-Type", "application/json")];
              body := request_body "서울시 강남구";
              signal := Some 0 |};
         ClearTimeout 0] ++ logs
      ∧ forallb is_ConsoleError logs = true
      ∧ length logs ≤ 2.
Proof.
  split; [apply idle_world_ok|].
  apply (search_care_jobs_single_request test_key seoul scenario_D), idle_world_ok.
Defined.

(** X6. Two invocations one after the other do not share their deadline:
    the second sets a timer and a controller of its own, and when both are
    over the schedule of timers is what it was before the first. *)
Theorem successive_invocations_use_fresh_handles (key1 key2 : option string)
    (args1 args2 : Args) (w : World) :
  world_ok w →
  let w1 := (search_care_jobs key1 args1 w).2 in
  let w2 := (search_care_jobs key2 args2 w1).2 in
  SetTimeout (next_timer w) TIMEOUT_MS ∈ trace w2
  ∧ SetTimeout (S (next_timer w)) TIMEOUT_MS ∈ trace w2
  ∧ FetchCall openRouterUrl
      (with_signal (request_options key1 (location args1)) (next_controller w)) ∈ trace w2
  ∧ FetchCall openRouterUrl
      (with_signal (request_options key2 (location args2)) (S (next_controller w))) ∈ trace w2
  ∧ timers w2 = timers w.
Proof.
  intros Hok. cbv zeta.
  destruct (search_care_jobs_world_exact key1 args1 w Hok)
    as (Hok1 & Hti1 & Hnt1 & Hnc1 & _ & _ & _ & _ & logs1 & Htr1 & _).
  destruct (search_care_jobs_world_exact key2 args2 _ Hok1)
    as (_ & Hti2 & _ & _ & _ & _ & _ & _ & logs2 & Htr2 & _).
  rewrite Hti2, Hti1, Htr2, Htr1. unfold wrapper_events. rewrite Hnt1, Hnc1.
  repeat split; set_solver.
Qed.

Lemma successive_invocations_use_fresh_handles_witness :
  world_ok scenario_B
  ∧ SetTimeout 0 TIMEOUT_MS
      ∈ trace (search_care_jobs None seoul (search_care_jobs test_key seoul scenario_B).2).2
  ∧ SetTimeout 1 TIMEOUT_MS
      ∈ trace (search_care_jobs None seoul (search_care_jobs test_key seoul scenario_B).2).2
  ∧ FetchCall openRouterUrl (with_signal (request_options test_key (location seoul)) 0)
      ∈ trace (search_care_jobs None seoul (search_care_jobs test_key seoul scenario_B).2).2
  ∧ FetchCall openRouterUrl (with_signal (request_options None (location seoul)) 1)
      ∈ trace (search_care_jobs None seoul (search_care_jobs test_key seoul scenario_B).2).2
  ∧ timers (search_care_jobs None seoul (search_care_jobs test_key seoul scenario_B).2).2 = ∅.
Proof.
  split; [apply idle_world_ok|].
  apply (successive_invocations_use_fresh_handles test_key None seoul seoul scenario_B),
    idle_world_ok.
Defined.

(** X7. When reading the body rejects ([response.json()] after a success
    status, [response.text()] after another) the fault thrown is that
    rejection: the handler returns the apology with its message, logs it
    once, and neither the status nor a structure error is reported. *)
Theorem body_read_fault_reported (key : option string) (args : Args) (w : World)
    (r : Response) (e : Thrown) :
  upstream w = Responds r →
  (ok r = true ∧ json_result r = Throw e) ∨ (ok r = false ∧ text_result r = Throw e) →
  let w1 := (fetchWithTimeout openRouterUrl
               (request_options key (location args)) TIMEOUT_MS w).2 in
  search_care_jobs_try key (location args) w = (Throw e, w1)
  ∧ search_care_jobs key args w =
      (Normal (text_result_of (JString (apology_preamble +:+ fault_text e))),
       emit (ConsoleError "일자리 검색 중 오류 발생:" (LogThrown e)) w1).
Proof.
  intros Hup Hbody. cbv zeta.
  assert (Htry : search_care_jobs_try key (location args) w =
                 (Throw e, (fetchWithTimeout openRouterUrl
                              (request_options key (location args)) TIMEOUT_MS w).2)).
  { rewrite search_care_jobs_try_unfold.
    destruct (fetchWithTimeout_run openRouterUrl (request_options key (location args))
                TIMEOUT_MS w) as (w1 & -> & _).
    rewrite Hup. cbv [wrapper_outcome snd]. unfold response_outcome.
    by destruct Hbody as [[-> ->]|[-> ->]]. }
  split; [exact Htry|]. by apply search_care_jobs_caught.
Qed.

Lemma body_read_fault_reported_witness :
  ∃ w',
    search_care_jobs test_key seoul html_on_200 =
      (Normal (text_result_of (JString (apology_preamble +:+
         "Unexpected token < in JSON at position 0"))), w')
    ∧ trace w' =
        [SetTimeout 0 25000;
         FetchCall openRouterUrl (with_signal (request_options test_key (location seoul)) 0);
         ClearTimeout 0;
         ConsoleError "일자리 검색 중 오류 발생:" (LogThrown not_json)].
Proof.
  eexists. split.
  - refine (proj2 (body_read_fault_reported test_key seoul html_on_200 _ not_json
                     eq_refl (or_introl (conj eq_refl eq_refl)))).
  - vm_compute. reflexivity.
Defined.

(** X8. The deadline covers the wait for the response only. When the
    response has arrived and the reading of its body never settles, the
    handler never returns, and the timer that could have aborted the
    request is already cleared. *)
Theorem stalled_body_hangs_handler (key : option string) (args : Args) (w : World)
    (r : Response) :
  upstream w = Responds r →
  (ok r = true ∧ json_result r = Hang) ∨ (ok r = false ∧ text_result r = Hang) →
  (search_care_jobs key args w).1 = Hang
  ∧ timers (search_care_jobs key args w).2 !! next_timer w = None
  ∧ last (trace (search_care_jobs key args w).2) = Some (ClearTimeout (next_timer w)).
Proof.
  intros Hup Hbody.
  pose proof (search_care_jobs_steps key args w) as Hsteps. cbv zeta in Hsteps.
  rewrite search_care_jobs_try_unfold in Hsteps.
  destruct (fetchWithTimeout_run openRouterUrl (request_options key (location args))
              TIMEOUT_MS w) as (w1 & Hrun & Hgone & _ & Hlast & _).
  rewrite Hrun, Hup in Hsteps. cbv [wrapper_outcome snd] in Hsteps.
  unfold response_outcome in Hsteps.
  assert (Hend : search_care_jobs key args w = (Hang, w1)).
  { by destruct Hbody as [[Hok Hread]|[Hok Hread]]; rewrite Hok, Hread in Hsteps;
      destruct Hsteps as [_ ->]. }
  by rewrite Hend.
Qed.

Lemma stalled_body_hangs_handler_witness :
  upstream stalled_body = Responds stalled_body_response
  ∧ (search_care_jobs test_key seoul stalled_body).1 = Hang
  ∧ timers (search_care_jobs test_key seoul stalled_body).2 !! 0 = None
  ∧ last (trace (search_care_jobs test_key seoul stalled_body).2) = Some (ClearTimeout 0).
Proof.
  split; [reflexivity|].
  apply (stalled_body_hangs_handler test_key seoul stalled_body stalled_body_response);
    [reflexivity | left; split; reflexivity].
Defined.

(** Scenario A satisfies the condition under which the handler returns. *)
Lemma search_care_jobs_returns_witness :
  ∃ v w', search_care_jobs test_key seoul scenario_A = (Normal (text_result_of v), w').
Proof.
  apply (search_care_jobs_returns test_key seoul scenario_A).
  intros r Hup. injection Hup as <-. discriminate.
Defined.

(** X10. A truthy assistant message is returned as it is, whatever its
    type, and nothing is logged: the result is the well-formed text item
    only if the message is a string. *)
Theorem truthy_content_returned_as_is (key : option string) (args : Args) (w : World)
    (r : Response) (data : JsValue) :
  upstream w = Responds r → ok r = true → json_result r = Normal data →
  to_boolean (content_at_path data) = true →
  search_care_jobs key args w =
    (Normal {| content := [ {| type := "text"; text := content_at_path data |} ] |},
     (fetchWithTimeout openRouterUrl (request_options key (location args)) TIMEOUT_MS w).2)
  ∧ (well_formed {| content := [ {| type := "text"; text := content_at_path data |} ] |} = true
     ↔ ∃ s, content_at_path data = JString s).
Proof.
  intros Hup Hok Hjson Htruthy. split.
  - pose proof (search_care_jobs_steps key args w) as Hsteps. cbv zeta in Hsteps.
    rewrite search_care_jobs_try_unfold in Hsteps.
    destruct (fetchWithTimeout_run openRouterUrl (request_options key (location args))
                TIMEOUT_MS w) as (w1 & Hrun & _).
    rewrite Hrun, Hup in Hsteps |- *. cbv [wrapper_outcome snd] in Hsteps |- *.
    unfold response_outcome in Hsteps. rewrite Hok, Hjson in Hsteps.
    destruct data; try discriminate Htruthy; rewrite Htruthy in Hsteps;
      by destruct Hsteps as [_ ->].
  - unfold well_formed, is_text_item. cbn.
    destruct (content_at_path data); split; try done; try (by intros [s' [=]]); by eexists.
Qed.

Lemma truthy_content_returned_as_is_witness :
  to_boolean (content_at_path (completion (JNumber number_500))) = true
  ∧ (search_care_jobs test_key seoul numeric_content).1 =
      Normal {| content := [ {| type := "text"; text := JNumber number_500 |} ] |}
  ∧ well_formed {| content := [ {| type := "text"; text := JNumber number_500 |} ] |} ≠ true.
Proof.
  split; [reflexivity|].
  destruct (truthy_content_returned_as_is test_key seoul numeric_content _
              (completion (JNumber number_500)) eq_refl eq_refl eq_refl eq_refl)
    as [Hrun Hwf].
  split; [by rewrite Hrun|].
  intros [s Hs]%Hwf. discriminate Hs.
Defined.

(** X11. [data.choices?.[0]?.message?.content] yields a value other than
    [undefined] exactly for an object whose [choices] has an object at index
    0 (the first element of an array, or the property [0] of an object),
    whose [message] is an object holding that value as [content]; further
    properties and further choices are not looked at. *)
Theorem content_at_path_defined_iff (data v : JsValue) :
  v ≠ JUndefined →
  content_at_path data = v ↔
  ∃ fields m c,
    data = JObject fields
    ∧ optional_index0 (own_property fields "choices") = JObject m
    ∧ own_property m "message" = JObject c
    ∧ own_property c "content" = v.
Proof.
  intros Hv. split.
  - intros Hpath. destruct data as [| |b|x|s|items|fields]; try (by subst v).
    unfold content_at_path, named_property in Hpath.
    destruct (optional_index0 (own_property fields "choices")) as [| |b|x|s|items|m]
      eqn:Hfirst; try (by subst v).
    cbv [optional_member named_property] in Hpath.
    destruct (own_property m "message") as [| |b|x|s|items|c] eqn:Hmsg;
      try (by subst v).
    by exists fields, m, c.
  - intros (fields & m & c & -> & Hfirst & Hmsg & Hcontent).
    unfold content_at_path, named_property. rewrite Hfirst.
    cbv [optional_member named_property]. by rewrite Hmsg.
Qed.

Lemma content_at_path_defined_iff_witness :
  JString "1. Title..." ≠ JUndefined
  ∧ content_at_path
      (JObject [("id", JString "gen-1");
                ("choices", JArray [JObject [("index", JNumber (S754_zero false));
                                             ("message", JObject [("role", JString "assistant");
                                                                  ("content", JString "1. Title...")])];
                                    JObject [("message", JObject [("content", JString "second")])]])])
    = JString "1. Title...".
Proof.
  split; [discriminate|].
  apply content_at_path_defined_iff; [discriminate|].
  eexists _, _, _. split; [reflexivity|]. split; [reflexivity|]. split; reflexivity.
Defined.

(** X12. For a success status whose body is neither [null] nor [undefined]
    and whose assistant message is missing or falsy, the handler first logs
    the body, then logs the extraction failure it throws, and returns the
    apology with the fixed extraction-failure message, the same for every
    such body. *)
Theorem unextractable_content_logged_and_refused (key : option string) (args : Args)
    (w : World) (r : Response) (data : JsValue) :
  upstream w = Responds r → ok r = true → json_result r = Normal data →
  is_nullish data = false → to_boolean (content_at_path data) = false →
  search_care_jobs key args w =
    (Normal (text_result_of (JString (apology_preamble +:+ extraction_failure_message))),
     emit (ConsoleError "일자리 검색 중 오류 발생:"
             (LogThrown (new_Error extraction_failure_message)))
       (emit (ConsoleError "OpenRouter 응답 구조 오류:" (LogValue data))
          (fetchWithTimeout openRouterUrl
             (request_options key (location args)) TIMEOUT_MS w).2)).
Proof.
  intros Hup Hok Hjson Hnull Hfalsy.
  assert (Htry : search_care_jobs_try key (location args) w =
                 (Throw (new_Error extraction_failure_message),
                  emit (ConsoleError "OpenRouter 응답 구조 오류:" (LogValue data))
                    (fetchWithTimeout openRouterUrl
                       (request_options key (location args)) TIMEOUT_MS w).2)).
  { rewrite search_care_jobs_try_unfold.
    destruct (fetchWithTimeout_run openRouterUrl (request_options key (location args))
                TIMEOUT_MS w) as (w1 & -> & _).
    rewrite Hup. cbv [wrapper_outcome snd]. unfold response_outcome.
    rewrite Hok, Hjson. destruct data; try discriminate Hnull; by rewrite Hfalsy. }
  by rewrite (search_care_jobs_caught _ _ _ _ _ Htry).
Qed.

Lemma unextractable_content_logged_and_refused_witness :
  is_nullish (JArray []) = false
  ∧ to_boolean (content_at_path (JArray [])) = false
  ∧ ∃ w',
      search_care_jobs test_key seoul array_body =
        (Normal (text_result_of (JString (apology_preamble +:+ extraction_failure_message))), w')
      ∧ trace w' =
          [SetTimeout 0 25000;
           FetchCall openRouterUrl (with_signal (request_options test_key (location seoul)) 0);
           ClearTimeout 0;
           ConsoleError "OpenRouter 응답 구조 오류:" (LogValue (JArray []));
           ConsoleError "일자리 검색 중 오류 발생:"
             (LogThrown (new_Error extraction_failure_message))].
Proof.
  split; [reflexivity|]. split; [reflexivity|].
  eexists. split.
  - refine (unextractable_content_logged_and_refused test_key seoul array_body
              (json_response "[]" (JArray [])) (JArray [])
              eq_refl eq_refl eq_refl eq_refl eq_refl).
  - vm_compute. reflexivity.
Defined.

(** ** Further properties of the registration and of the request *)

(** X13. Whenever the gate adds an entry, the key its handler holds is a
    non-empty string, and every request the registered callback issues
    carries that key as bearer token: a registered tool never sends
    [Bearer undefined] or an empty token. *)
Theorem registered_entry_sends_nonempty_bearer (key : option string) (w : World)
    (entry : ToolEntry) :
  tool_table (registerSearchCareJobsTool key w).2 = tool_table w ++ [entry] →
  ∃ s,
    key = Some s ∧ s ≠ EmptyString
    ∧ tool_name entry = "search_care_jobs"
    ∧ ∀ (args : Args) (w2 : World),
        FetchCall openRouterUrl
          {| method := "POST";
             headers := [("Authorization", "Bearer " +:+ s);
                         ("Content-Type", "application/json")];
             body := request_body (location args);
             signal := Some (next_controller w2) |}
        ∈ trace (call (tool_callback entry) args w2).2.
Proof.
  intros Htable.
  destruct key as [[|c s]|]; cbn in Htable.
  - apply (f_equal length) in Htable. rewrite length_app in Htable. cbn in Htable. lia.
  - apply app_inv_head in Htable. injection Htable as <-.
    exists (String c s). repeat split; [done|].
    intros args w2. cbn [tool_callback call].
    destruct (search_care_jobs_world (Some (String c s)) args w2)
      as (w1 & (_ & _ & _ & _ & Hfetch & _) & _ & Hgrow).
    apply Hgrow, Hfetch.
  - apply (f_equal length) in Htable. rewrite length_app in Htable. cbn in Htable. lia.
Qed.

Lemma registered_entry_sends_nonempty_bearer_witness :
  tool_table (registerSearchCareJobsTool test_key idle_world).2 =
    tool_table idle_world ++ [search_care_jobs_entry test_key]
  ∧ ∃ s,
      test_key = Some s ∧ s ≠ EmptyString
      ∧ tool_name (search_care_jobs_entry test_key) = "search_care_jobs"
      ∧ ∀ (args : Args) (w2 : World),
          FetchCall openRouterUrl
            {| method := "POST";
               headers := [("Authorization", "Bearer " +:+ s);
                           ("Content-Type", "application/json")];
               body := request_body (location args);
               signal := Some (next_controller w2) |}
          ∈ trace (call (tool_callback (search_care_jobs_entry test_key)) args w2).2.
Proof.
  split; [reflexivity|].
  by apply (registered_entry_sends_nonempty_bearer test_key idle_world).
Defined.






